(** * PIC12F675 + HC4040 frequency meter with binary readout

    A shallow embedding of [main.c]: the timer-0 interrupt handler [isr], the
    one-time set-up [freq_init] and the foreground loop of [main], over an
    explicit record of the special function registers and the two globals
    [tmr_pr] and [tmr_prx1].

    Integer model (the 8-bit PIC toolchains the source is written for):
    [unsigned long]/[uint32_t] has 32 bits, [int]/[uint16_t] 16 bits, [char]
    and every special function register 8 bits.  A register or a [char] is
    kept as its bit pattern, an integer in [0, 256). *)

From Stdlib Require Import ZArith List Bool Lia.
Import ListNotations.
Local Open Scope Z_scope.

(** ** C integers *)

Module CInt.

Definition u8 (x : Z) : Z := x mod 2 ^ 8.
Definition u16 (x : Z) : Z := x mod 2 ^ 16.
Definition u32 (x : Z) : Z := x mod 2 ^ 32.

(** Conversion of any integer to a signed 16-bit [int]. *)
Definition s16 (x : Z) : Z :=
  let r := u16 x in if r <? 2 ^ 15 then r else r - 2 ^ 16.

(** Integer promotion of a [char] with bit pattern [c]: plain [char] is
    unsigned on some PIC compilers and signed on others. *)
Definition promote (char_signed : bool) (c : Z) : Z :=
  if char_signed then (if c <? 2 ^ 7 then c else c - 2 ^ 8) else c.

End CInt.
Import CInt.

(** ** Build configuration: the macros of the "hardware configuration" block *)

Inductive sfr := GPIO | TRISIO | WPU.

Record build := mkBuild {
  F_CLK : Z;                 (* crystal clock, in Hz                      *)
  F_MSB : Z;                 (* frequency shown by the highest bit, in Hz *)
  PS_TMR : Z;                (* TMR0 prescaler                            *)
  BTN_PORT : option sfr;     (* [None]: the #define is commented out      *)
  char_signed : bool         (* signedness of plain [char]                *)
}.

(** The values written in the source: 12 MHz, 6.4 MHz, 1:64, no button. *)
Definition shipped (sgn : bool) : build :=
  mkBuild 12000000 6400000 64 None sgn.

Definition CNTR_PORT : sfr := GPIO.
Definition CNTR_DDR : sfr := TRISIO.
Definition CNTR_CLK : Z := Z.shiftl 1 0.
Definition CNTR_MR : Z := Z.shiftl 1 1.
Definition BTN_DDR : sfr := TRISIO.
Definition BTN_PIN : Z := Z.shiftl 1 3.
Definition LED_PIN : Z := Z.shiftl 1 2.

(** ** Machine state *)

Record state := mkState {
  rGPIO : Z;
  rTRISIO : Z;
  rWPU : Z;
  nGPPU : bool;
  T0CS : bool;
  PSA : bool;
  PS : Z;
  T0IF : bool;
  T0IE : bool;
  GIE : bool;
  TMR0 : Z;
  tmr_pr : Z;
  tmr_prx1 : Z
}.

Definition get_sfr (r : sfr) (s : state) : Z :=
  match r with GPIO => rGPIO s | TRISIO => rTRISIO s | WPU => rWPU s end.

Definition set_sfr (r : sfr) (v : Z) (s : state) : state :=
  match r with
  | GPIO => mkState v (rTRISIO s) (rWPU s) (nGPPU s) (T0CS s) (PSA s) (PS s)
              (T0IF s) (T0IE s) (GIE s) (TMR0 s) (tmr_pr s) (tmr_prx1 s)
  | TRISIO => mkState (rGPIO s) v (rWPU s) (nGPPU s) (T0CS s) (PSA s) (PS s)
              (T0IF s) (T0IE s) (GIE s) (TMR0 s) (tmr_pr s) (tmr_prx1 s)
  | WPU => mkState (rGPIO s) (rTRISIO s) v (nGPPU s) (T0CS s) (PSA s) (PS s)
              (T0IF s) (T0IE s) (GIE s) (TMR0 s) (tmr_pr s) (tmr_prx1 s)
  end.

Definition set_nGPPU (b : bool) (s : state) : state :=
  mkState (rGPIO s) (rTRISIO s) (rWPU s) b (T0CS s) (PSA s) (PS s)
          (T0IF s) (T0IE s) (GIE s) (TMR0 s) (tmr_pr s) (tmr_prx1 s).
Definition set_T0CS (b : bool) (s : state) : state :=
  mkState (rGPIO s) (rTRISIO s) (rWPU s) (nGPPU s) b (PSA s) (PS s)
          (T0IF s) (T0IE s) (GIE s) (TMR0 s) (tmr_pr s) (tmr_prx1 s).
Definition set_PSA (b : bool) (s : state) : state :=
  mkState (rGPIO s) (rTRISIO s) (rWPU s) (nGPPU s) (T0CS s) b (PS s)
          (T0IF s) (T0IE s) (GIE s) (TMR0 s) (tmr_pr s) (tmr_prx1 s).
Definition set_PS (v : Z) (s : state) : state :=
  mkState (rGPIO s) (rTRISIO s) (rWPU s) (nGPPU s) (T0CS s) (PSA s) v
          (T0IF s) (T0IE s) (GIE s) (TMR0 s) (tmr_pr s) (tmr_prx1 s).
Definition set_T0IF (b : bool) (s : state) : state :=
  mkState (rGPIO s) (rTRISIO s) (rWPU s) (nGPPU s) (T0CS s) (PSA s) (PS s)
          b (T0IE s) (GIE s) (TMR0 s) (tmr_pr s) (tmr_prx1 s).
Definition set_T0IE (b : bool) (s : state) : state :=
  mkState (rGPIO s) (rTRISIO s) (rWPU s) (nGPPU s) (T0CS s) (PSA s) (PS s)
          (T0IF s) b (GIE s) (TMR0 s) (tmr_pr s) (tmr_prx1 s).
Definition set_GIE (b : bool) (s : state) : state :=
  mkState (rGPIO s) (rTRISIO s) (rWPU s) (nGPPU s) (T0CS s) (PSA s) (PS s)
          (T0IF s) (T0IE s) b (TMR0 s) (tmr_pr s) (tmr_prx1 s).
Definition set_TMR0 (v : Z) (s : state) : state :=
  mkState (rGPIO s) (rTRISIO s) (rWPU s) (nGPPU s) (T0CS s) (PSA s) (PS s)
          (T0IF s) (T0IE s) (GIE s) v (tmr_pr s) (tmr_prx1 s).
Definition set_tmr_pr (v : Z) (s : state) : state :=
  mkState (rGPIO s) (rTRISIO s) (rWPU s) (nGPPU s) (T0CS s) (PSA s) (PS s)
          (T0IF s) (T0IE s) (GIE s) (TMR0 s) v (tmr_prx1 s).
Definition set_tmr_prx1 (v : Z) (s : state) : state :=
  mkState (rGPIO s) (rTRISIO s) (rWPU s) (nGPPU s) (T0CS s) (PSA s) (PS s)
          (T0IF s) (T0IE s) (GIE s) (TMR0 s) (tmr_pr s) v.

(** ** What the outside sees: writes to the port and the MR delay *)

Inductive event :=
| PortWrite (v : Z)        (* a new value driven on GPIO *)
| Nop16.                   (* CNTR_DLY(): sixteen no-operation cycles *)

(** ** A state, trace and fault monad for the C statements *)

Inductive result (A : Type) :=
| Ret (a : A) (s : state) (tr : list event)   (* ran to the end           *)
| Hang (s : state) (tr : list event)          (* stuck in [while (1);]    *)
| Undef.                                      (* division by zero         *)
Arguments Ret {A} a s tr.
Arguments Hang {A} s tr.
Arguments Undef {A}.

Definition M (A : Type) : Type := state -> result A.

Definition ret {A} (a : A) : M A := fun s => Ret a s [].

Definition bind {A B} (m : M A) (k : A -> M B) : M B :=
  fun s =>
    match m s with
    | Ret a s1 tr1 =>
        match k a s1 with
        | Ret b s2 tr2 => Ret b s2 (tr1 ++ tr2)
        | Hang s2 tr2 => Hang s2 (tr1 ++ tr2)
        | Undef => Undef
        end
    | Hang s1 tr1 => Hang s1 tr1
    | Undef => Undef
    end.

Notation "x <- m ;; k" := (bind m (fun x => k))
  (at level 61, m at next level, right associativity).
Notation "m ;; k" := (bind m (fun _ => k))
  (at level 61, right associativity).

Definition gets {A} (f : state -> A) : M A := fun s => Ret (f s) s [].
Definition modify (f : state -> state) : M unit := fun s => Ret tt (f s) [].
Definition emit (e : event) : M unit := fun s => Ret tt s [e].
Definition hang {A} : M A := fun s => Hang s [].
Definition undef {A} : M A := fun _ => Undef.

(** A store to a special function register keeps its low eight bits; a store
    to GPIO is visible on the pins. *)
Definition store (r : sfr) (v : Z) : M unit :=
  modify (set_sfr r (u8 v)) ;;
  match r with GPIO => emit (PortWrite (u8 v)) | _ => ret tt end.

Definition load (r : sfr) : M Z := gets (get_sfr r).

(** Modelled from the spec: [IO_SET] of [gpio.h], which is not among the
    sources; the pin access primitive that drives pins to the high level. *)
Definition IO_SET (port : sfr) (pins : Z) : M unit :=
  v <- load port ;; store port (Z.lor v pins).

(** Modelled from the spec: [IO_CLR] of [gpio.h], which is not among the
    sources; the pin access primitive that drives pins to the low level. *)
Definition IO_CLR (port : sfr) (pins : Z) : M unit :=
  v <- load port ;; store port (Z.land v (Z.lnot pins)).

(** Modelled from the spec: [IO_FLP] of [gpio.h], which is not among the
    sources; the pin access primitive that flips the level of pins. *)
Definition IO_FLP (port : sfr) (pins : Z) : M unit :=
  v <- load port ;; store port (Z.lxor v pins).

(** Modelled from the spec: [IO_GET] of [gpio.h], which is not among the
    sources; the pin access primitive that reads the level of pins (zero
    when all of them are low). *)
Definition IO_GET (port : sfr) (pins : Z) : M Z :=
  v <- load port ;; ret (Z.land v pins).

(** Modelled from the spec: [IO_OUT] of [gpio.h], which is not among the
    sources; it makes pins outputs (direction bit 0). *)
Definition IO_OUT (ddr : sfr) (pins : Z) : M unit :=
  v <- load ddr ;; store ddr (Z.land v (Z.lnot pins)).

(** Modelled from the spec: [IO_IN] of [gpio.h], which is not among the
    sources; it makes pins inputs (direction bit 1). *)
Definition IO_IN (ddr : sfr) (pins : Z) : M unit :=
  v <- load ddr ;; store ddr (Z.lor v pins).

(** Modelled from the spec: [NOP16] of [delay.h], which is not among the
    sources; a fixed minimum number of no-op cycles. *)
Definition NOP16 : M unit := emit Nop16.

Definition CNTR_DLY : M unit := NOP16.

(** ** isr: the timer-0 interrupt handler *)

Definition isr : M unit :=
  modify (set_T0IF false) ;;
  (pr <- gets tmr_pr ;; modify (set_TMR0 pr)) ;;
  IO_FLP CNTR_PORT CNTR_CLK ;;
  c <- IO_GET CNTR_PORT CNTR_CLK ;;
  if negb (c =? 0) then
    IO_SET CNTR_PORT CNTR_MR ;;
    CNTR_DLY ;;
    IO_CLR CNTR_PORT CNTR_MR
  else ret tt.

(** ** freq_init *)

(** The initialiser of [cyc]: 32-bit unsigned arithmetic, stored in a
    [uint16_t]. *)
Definition cyc_of (b : build) : M Z :=
  let d := F_MSB b / 1000 in
  if d =? 0 then undef
  else ret (u16 (u32 (F_CLK b / 1000000 / 4 * Z.shiftl 1000 11) / d)).

(** [tmr_prx1 = -(cyc / ps)]: [cyc] is a [uint16_t], so the quotient and its
    negation are unsigned 16-bit; the store into a [char] keeps eight bits. *)
Definition neg_period (cyc ps : Z) : Z := u8 (u16 (- (cyc / ps))).

Definition freq_init (b : build) : M unit :=
  cyc <- cyc_of b ;;
  modify (set_nGPPU false) ;;
  (w <- load WPU ;; store WPU (Z.lor w CNTR_CLK)) ;;
  IO_CLR CNTR_PORT CNTR_CLK ;;
  IO_SET CNTR_PORT CNTR_MR ;;
  IO_OUT CNTR_DDR (Z.lor CNTR_CLK CNTR_MR) ;;
  match BTN_PORT b with
  | Some _ =>
      (w <- load WPU ;; store WPU (Z.lor w BTN_PIN)) ;;
      IO_IN BTN_DDR BTN_PIN ;;
      IO_OUT BTN_DDR LED_PIN
  | None => ret tt
  end ;;
  modify (set_T0CS false) ;;
  modify (set_PSA false) ;;
  (let ps := PS_TMR b in
   if ps =? 256 then modify (set_PS 7) ;; modify (set_tmr_prx1 (neg_period cyc 256))
   else if ps =? 128 then modify (set_PS 6) ;; modify (set_tmr_prx1 (neg_period cyc 128))
   else if ps =? 64 then modify (set_PS 5) ;; modify (set_tmr_prx1 (neg_period cyc 64))
   else if ps =? 32 then modify (set_PS 4) ;; modify (set_tmr_prx1 (neg_period cyc 32))
   else if ps =? 16 then modify (set_PS 3) ;; modify (set_tmr_prx1 (neg_period cyc 16))
   else if ps =? 8 then modify (set_PS 2) ;; modify (set_tmr_prx1 (neg_period cyc 8))
   else if ps =? 4 then modify (set_PS 1) ;; modify (set_tmr_prx1 (neg_period cyc 4))
   else if ps =? 2 then modify (set_PS 0) ;; modify (set_tmr_prx1 (neg_period cyc 2))
   else hang) ;;
  (x <- gets tmr_prx1 ;; modify (set_tmr_pr x)) ;;
  modify (set_T0IF false) ;;
  modify (set_T0IE true).

(** ** main: one turn of the foreground loop *)

Definition loop_body (b : build) : M unit :=
  match BTN_PORT b with
  | Some port =>
      v <- IO_GET port BTN_PIN ;;
      if v =? 0 then
        (x <- gets tmr_prx1 ;;
         modify (set_tmr_pr (u8 (s16 (10 * promote (char_signed b) x))))) ;;
        IO_SET port LED_PIN
      else
        (x <- gets tmr_prx1 ;; modify (set_tmr_pr x)) ;;
        IO_CLR port LED_PIN
  | None => ret tt
  end.

(** ** The hardware around the program: timer 0 and interrupt dispatch *)

(** One prescaled increment of TMR0; the roll-over from 255 to 0 raises
    T0IF. *)
Definition tmr0_tick (s : state) : state :=
  let t := u8 (TMR0 s + 1) in
  if t =? 0 then set_T0IF true (set_TMR0 t s) else set_TMR0 t s.

Fixpoint ticks (n : nat) (s : state) : state :=
  match n with
  | O => s
  | S k => tmr0_tick (ticks k s)
  end.

(** The flag is first raised by the [n]-th increment. *)
Definition expires_at (s : state) (n : nat) : Prop :=
  T0IF (ticks n s) = true /\
  forall k, (k < n)%nat -> T0IF (ticks k s) = false.

(** State and trace a [unit] computation leaves behind. *)
Definition exec (m : M unit) (s : state) : state * list event :=
  match m s with
  | Ret _ s' tr => (s', tr)
  | Hang s' tr => (s', tr)
  | Undef => (s, [])
  end.

(** The handler is entered when the flag, its enable bit and the global
    enable bit are all set. *)
Definition dispatch (s : state) : state * list event :=
  if GIE s && T0IE s && T0IF s then exec isr s else (s, []).

(** What the foreground is doing once [main] has called [freq_init]. *)
Inductive mode := Looping | Faulted.

Record system := mkSys { sys_mode : mode; sys_state : state }.

(** [main] up to the loop: [freq_init(); ei();].  [mcu_init] is not among the
    sources; the state it leaves is the argument [s]. *)
Definition boot (b : build) (s : state) : option (system * list event) :=
  match freq_init b s with
  | Ret _ s' tr => Some (mkSys Looping (set_GIE true s'), tr)
  | Hang s' tr => Some (mkSys Faulted s', tr)
  | Undef => None
  end.

Inductive stimulus :=
| Tick                      (* one prescaled timer increment            *)
| Iter                      (* the foreground runs one turn of its loop *)
| Button (level : bool).    (* the level on the button pin changes      *)

Definition set_pin (pins : Z) (level : bool) (v : Z) : Z :=
  if level then Z.lor v pins else Z.land v (Z.lnot pins).

Definition step (b : build) (y : system) (x : stimulus) : system * list event :=
  match x with
  | Tick =>
      let (s', tr) := dispatch (tmr0_tick (sys_state y)) in
      (mkSys (sys_mode y) s', tr)
  | Iter =>
      match sys_mode y with
      | Looping =>
          let (s', tr) := exec (loop_body b) (sys_state y) in
          (mkSys Looping s', tr)
      | Faulted => (y, [])
      end
  | Button level =>
      (mkSys (sys_mode y)
             (set_sfr GPIO (u8 (set_pin BTN_PIN level (rGPIO (sys_state y))))
                      (sys_state y)), [])
  end.

Fixpoint run (b : build) (y : system) (xs : list stimulus) : system * list event :=
  match xs with
  | [] => (y, [])
  | x :: rest =>
      let (y1, tr1) := step b y x in
      let (y2, tr2) := run b y1 rest in
      (y2, tr1 ++ tr2)
  end.

(** ** Reading the two output lines *)

Definition gate (s : state) : bool := Z.testbit (rGPIO s) 0.
Definition mr (s : state) : bool := Z.testbit (rGPIO s) 1.

(** Reset pulses in a trace: MR driven high, held for the delay, driven low. *)
Fixpoint reset_pulses (tr : list event) : nat :=
  match tr with
  | [] => O
  | PortWrite v1 :: rest =>
      match rest with
      | Nop16 :: PortWrite v2 :: _ =>
          if Z.testbit v1 1 && negb (Z.testbit v2 1)
          then S (reset_pulses rest) else reset_pulses rest
      | _ => reset_pulses rest
      end
  | Nop16 :: rest => reset_pulses rest
  end.

(** Whether a trace holds the MR delay, that is, whether MR was pulsed. *)
Definition is_delay (e : event) : bool :=
  match e with Nop16 => true | PortWrite _ => false end.
Definition has_delay (tr : list event) : bool := existsb is_delay tr.

(** Timer increments among the stimuli. *)
Fixpoint ticks_in (xs : list stimulus) : nat :=
  match xs with
  | [] => O
  | Tick :: rest => S (ticks_in rest)
  | _ :: rest => ticks_in rest
  end.

(** ** The spec's formula and legality predicate (section 4.1), for comparison *)

Module Spec.

Definition cycles (osc fs : Z) : Z :=
  osc / 1000000 / 4 * (1000 * 2048) / (fs / 1000).

(** No division of the formula truncates. *)
Definition exact (osc fs : Z) : bool :=
  (osc mod 1000000 =? 0) && (osc / 1000000 mod 4 =? 0) &&
  (fs mod 1000 =? 0) && negb (fs / 1000 =? 0) &&
  (osc / 1000000 / 4 * (1000 * 2048) mod (fs / 1000) =? 0).

Definition divisible (c ps : Z) : bool := negb (ps =? 0) && (c mod ps =? 0).

Definition supported (ps : Z) : bool :=
  existsb (Z.eqb ps) [2; 4; 8; 16; 32; 64; 128; 256].

(** The three conditions of the legality predicate. *)
Definition admissible (osc fs ps : Z) : bool :=
  exact osc fs && divisible (cycles osc fs) ps && (cycles osc fs / ps <=? 25).

(** TimebaseParameters, as the header comment constrains the three macros:
    frequencies are unsigned 32-bit numbers of hertz, the clock is at least
    4 MHz, the prescaler is one of the eight divisors, the combination is
    admissible. *)
Definition legal (osc fs ps : Z) : bool :=
  (4000000 <=? osc) && (osc <? 2 ^ 32) && (0 <=? fs) && (fs <? 2 ^ 32) &&
  supported ps && admissible osc fs ps.

End Spec.

(** ** Names for the values the code computes on its way *)

(** The port values the handler writes: after the flip of CLK, after MR is
    set, after MR is cleared. *)
Definition isr_toggled (s : state) : Z := u8 (Z.lxor (rGPIO s) CNTR_CLK).
Definition isr_mr_high (s : state) : Z := u8 (Z.lor (isr_toggled s) CNTR_MR).
Definition isr_mr_low (s : state) : Z :=
  u8 (Z.land (isr_mr_high s) (Z.lnot CNTR_MR)).

(** The selector the switch writes to OPTION_REG.PS, if the prescaler is one
    of its cases. *)
Definition ps_code (ps : Z) : option Z :=
  if ps =? 256 then Some 7
  else if ps =? 128 then Some 6
  else if ps =? 64 then Some 5
  else if ps =? 32 then Some 4
  else if ps =? 16 then Some 3
  else if ps =? 8 then Some 2
  else if ps =? 4 then Some 1
  else if ps =? 2 then Some 0
  else None.

(** The port values [freq_init] writes: CLK cleared, then MR set. *)
Definition gate_low (s : state) : Z :=
  u8 (Z.land (rGPIO s) (Z.lnot CNTR_CLK)).
Definition pins_idle (s : state) : Z := u8 (Z.lor (gate_low s) CNTR_MR).

(** The registers once the pins and the timer source are set up, before the
    switch. *)
Definition init_regs (b : build) (s : state) : state :=
  let wpu := u8 (Z.lor (rWPU s) CNTR_CLK) in
  let tris := u8 (Z.land (rTRISIO s) (Z.lnot (Z.lor CNTR_CLK CNTR_MR))) in
  mkState (pins_idle s)
    (match BTN_PORT b with
     | Some _ => u8 (Z.land (u8 (Z.lor tris BTN_PIN)) (Z.lnot LED_PIN))
     | None => tris
     end)
    (match BTN_PORT b with
     | Some _ => u8 (Z.lor wpu BTN_PIN)
     | None => wpu
     end)
    false false false (PS s) (T0IF s) (T0IE s) (GIE s) (TMR0 s)
    (tmr_pr s) (tmr_prx1 s).

(** The value of [cyc] when the divisor is not zero. *)
Definition code_cyc (b : build) : Z :=
  u16 (u32 (F_CLK b / 1000000 / 4 * Z.shiftl 1000 11) / (F_MSB b / 1000)).

(** The state [freq_init] returns in, [code] being the prescaler selector. *)
Definition armed (b : build) (code : Z) (s : state) : state :=
  let x := neg_period (code_cyc b) (PS_TMR b) in
  set_T0IE true
    (set_T0IF false (set_tmr_pr x (set_tmr_prx1 x (set_PS code (init_regs b s))))).

(** Registers of the PIC12F675 after a power-on reset (GPIO latch taken as 0);
    the globals are zero-initialised. *)
Definition power_on : state :=
  mkState 0 63 55 true true true 7 false false false 0 0 0.

(** The count a reload constant encodes: its negation in eight bits. *)
Definition magnitude (reload : Z) : Z := u8 (- reload).

(** The event of a store of [v] to [port]. *)
Definition port_trace (port : sfr) (v : Z) : list event :=
  match port with GPIO => [PortWrite v] | _ => [] end.

(** The number of MR delays in a trace: one per reset pulse. *)
Definition delays (tr : list event) : nat := length (filter is_delay tr).

(** [tmr_pr] holds the nominal constant or ten times it, as bytes. *)
Definition reload_ok (s : state) : Prop :=
  0 <= tmr_prx1 s < 256 /\ 0 <= tmr_pr s < 256 /\
  (tmr_pr s = tmr_prx1 s \/ tmr_pr s = (10 * tmr_prx1 s) mod 256).

(** Whether a stimulus makes the handler run: a timer increment after which
    the flag and both enables are set. *)
Definition fires (y : system) (x : stimulus) : bool :=
  match x with
  | Tick =>
      let s1 := tmr0_tick (sys_state y) in GIE s1 && T0IE s1 && T0IF s1
  | _ => false
  end.

(** The number of handler runs along a sequence of stimuli. *)
Fixpoint expiries (b : build) (y : system) (xs : list stimulus) : nat :=
  match xs with
  | [] => O
  | x :: rest =>
      ((if fires y x then 1 else 0) + expiries b (fst (step b y x)) rest)%nat
  end.

(** Every button change in the stimuli sets the pin to [level]. *)
Definition button_held (level : bool) (xs : list stimulus) : Prop :=
  forall l, In (Button l) xs -> l = level.

(** What a loop turn makes of [tmr_pr] and the LED for a button level. *)
Definition range_selected (level : bool) (s : state) : Prop :=
  tmr_pr s = (if level then tmr_prx1 s else (10 * tmr_prx1 s) mod 256) /\
  Z.testbit (rGPIO s) 2 = negb level.

(** * Properties *)

(** ** Bits of 8-bit registers *)

Lemma u8_small x : 0 <= x < 256 -> u8 x = x.
Proof. intros H. apply Z.mod_small. exact H. Qed.

Lemma testbit_u8 x i : 0 <= i < 8 -> Z.testbit (u8 x) i = Z.testbit x i.
Proof. intros H. unfold u8. apply Z.mod_pow2_bits_low. lia. Qed.

Lemma testbit_pin i n :
  0 <= i -> Z.testbit (Z.shiftl 1 i) n = (n =? i).
Proof.
  intros Hi. destruct (Z.ltb_spec n 0) as [Hn | Hn].
  - rewrite Z.testbit_neg_r by exact Hn. symmetry. apply Z.eqb_neq. lia.
  - rewrite Z.shiftl_spec by exact Hn.
    destruct (Z.eqb_spec n i) as [-> | Hne].
    + rewrite Z.sub_diag. reflexivity.
    + destruct (Z.ltb_spec n i).
      * apply Z.testbit_neg_r. lia.
      * replace (n - i) with (Z.succ (n - i - 1)) by lia.
        change 1 with (2 * 0 + 1).
        rewrite Z.testbit_odd_succ by lia. apply Z.testbit_0_l.
Qed.

Lemma land_pin_eqb v i :
  0 <= i -> (Z.land v (Z.shiftl 1 i) =? 0) = negb (Z.testbit v i).
Proof.
  intros Hi. destruct (Z.testbit v i) eqn:Hb; simpl.
  - apply Z.eqb_neq. intros H0.
    assert (Hc : Z.testbit (Z.land v (Z.shiftl 1 i)) i = true).
    { rewrite Z.land_spec, Hb, testbit_pin, Z.eqb_refl by exact Hi. reflexivity. }
    rewrite H0, Z.testbit_0_l in Hc. discriminate.
  - apply Z.eqb_eq. apply Z.bits_inj'. intros n Hn.
    rewrite Z.land_spec, testbit_pin, Z.testbit_0_l by exact Hi.
    destruct (Z.eqb_spec n i) as [-> | _].
    + rewrite Hb. reflexivity.
    + apply andb_false_r.
Qed.

(** Bit [j] of a port value after one of the pin operations on pin [i]. *)
Lemma testbit_set v i j :
  0 <= i -> 0 <= j < 8 ->
  Z.testbit (u8 (Z.lor v (Z.shiftl 1 i))) j = Z.testbit v j || (j =? i).
Proof.
  intros Hi Hj. rewrite testbit_u8, Z.lor_spec, testbit_pin by assumption.
  reflexivity.
Qed.

Lemma testbit_clr v i j :
  0 <= i -> 0 <= j < 8 ->
  Z.testbit (u8 (Z.land v (Z.lnot (Z.shiftl 1 i)))) j
  = Z.testbit v j && negb (j =? i).
Proof.
  intros Hi Hj.
  rewrite testbit_u8, Z.land_spec, Z.lnot_spec, testbit_pin by lia.
  reflexivity.
Qed.

Lemma testbit_flp v i j :
  0 <= i -> 0 <= j < 8 ->
  Z.testbit (u8 (Z.lxor v (Z.shiftl 1 i))) j = xorb (Z.testbit v j) (j =? i).
Proof.
  intros Hi Hj. rewrite testbit_u8, Z.lxor_spec, testbit_pin by assumption.
  reflexivity.
Qed.

(** ** The handler, statement by statement *)

Lemma isr_run s :
  isr s =
  let s1 := set_sfr GPIO (isr_toggled s)
              (set_TMR0 (tmr_pr s) (set_T0IF false s)) in
  if Z.testbit (isr_toggled s) 0
  then Ret tt (set_sfr GPIO (isr_mr_low s) s1)
         [PortWrite (isr_toggled s); PortWrite (isr_mr_high s); Nop16;
          PortWrite (isr_mr_low s)]
  else Ret tt s1 [PortWrite (isr_toggled s)].
Proof.
  pose proof (land_pin_eqb (isr_toggled s) 0 (Z.le_refl 0)) as Hc.
  unfold isr, bind, IO_FLP, IO_GET, IO_SET, IO_CLR, CNTR_DLY, NOP16, store,
    load, gets, modify, emit, ret, CNTR_PORT, isr_mr_low, isr_mr_high,
    isr_toggled in *; cbn in *.
  rewrite Hc, negb_involutive.
  destruct (Z.odd _); reflexivity.
Qed.

Lemma toggled_bit s j :
  0 <= j < 8 ->
  Z.testbit (isr_toggled s) j = xorb (Z.testbit (rGPIO s) j) (j =? 0).
Proof. intros Hj. apply testbit_flp; lia. Qed.

Lemma mr_high_bit s j :
  0 <= j < 8 ->
  Z.testbit (isr_mr_high s) j = Z.testbit (isr_toggled s) j || (j =? 1).
Proof. intros Hj. apply testbit_set; lia. Qed.

Lemma mr_low_bit s j :
  0 <= j < 8 ->
  Z.testbit (isr_mr_low s) j = Z.testbit (isr_mr_high s) j && negb (j =? 1).
Proof. intros Hj. apply testbit_clr; lia. Qed.

Lemma toggled_gate s : Z.testbit (isr_toggled s) 0 = negb (gate s).
Proof.
  rewrite toggled_bit by lia. unfold gate.
  destruct (Z.testbit (rGPIO s) 0); reflexivity.
Qed.

(** The handler always returns; it never hangs and never divides. *)
Lemma isr_returns s : exists s' tr, isr s = Ret tt s' tr.
Proof.
  rewrite isr_run. cbv zeta.
  destruct (Z.testbit (isr_toggled s) 0); eauto.
Qed.

(** The handler when the gate was closed: the gate opens and MR is pulsed. *)
Lemma isr_opening s :
  gate s = false ->
  isr s =
  Ret tt
    (set_sfr GPIO (isr_mr_low s)
       (set_sfr GPIO (isr_toggled s)
          (set_TMR0 (tmr_pr s) (set_T0IF false s))))
    [PortWrite (isr_toggled s); PortWrite (isr_mr_high s); Nop16;
     PortWrite (isr_mr_low s)].
Proof.
  intros Hg. rewrite isr_run. cbv zeta. rewrite toggled_gate, Hg. reflexivity.
Qed.

(** The handler when the gate was open: the gate closes, nothing else. *)
Lemma isr_closing s :
  gate s = true ->
  isr s =
  Ret tt
    (set_sfr GPIO (isr_toggled s) (set_TMR0 (tmr_pr s) (set_T0IF false s)))
    [PortWrite (isr_toggled s)].
Proof.
  intros Hg. rewrite isr_run. cbv zeta. rewrite toggled_gate, Hg. reflexivity.
Qed.

(** C2. Reset-pulse placement: every invocation of the handler returns and
    flips the gate-enable line; its trace holds one reset pulse when the line
    reads high after the flip (the gate went from closed to open) and none
    when it reads low (the gate went from open to closed), in which case the
    only port write is the flip itself and it leaves MR as it was. *)
Theorem isr_reset_pulse_iff_gate_opens (s : state) :
  exists s' tr,
    isr s = Ret tt s' tr /\
    gate s' = negb (gate s) /\
    hd_error tr = Some (PortWrite (isr_toggled s)) /\
    Z.testbit (isr_toggled s) 0 = gate s' /\
    reset_pulses tr = (if gate s' then 1%nat else 0%nat) /\
    (In Nop16 tr <-> gate s' = true) /\
    (gate s' = false -> tr = [PortWrite (isr_toggled s)] /\ mr s' = mr s).
Proof.
  destruct (gate s) eqn:Hg.
  - rewrite (isr_closing s Hg). do 2 eexists. split; [reflexivity |].
    assert (Hg' : Z.testbit (isr_toggled s) 0 = false)
      by (rewrite toggled_gate, Hg; reflexivity).
    unfold gate, mr; cbn [set_sfr rGPIO negb hd_error]. rewrite Hg'.
    repeat split; try reflexivity.
    + intros [H | []]. discriminate H.
    + discriminate.
    + rewrite toggled_bit by lia. apply xorb_false_r.
  - rewrite (isr_opening s Hg). do 2 eexists. split; [reflexivity |].
    assert (Hg' : Z.testbit (isr_toggled s) 0 = true)
      by (rewrite toggled_gate, Hg; reflexivity).
    assert (Hl0 : Z.testbit (isr_mr_low s) 0 = true).
    { rewrite mr_low_bit, mr_high_bit, Hg' by lia. reflexivity. }
    assert (Hh1 : Z.testbit (isr_mr_high s) 1 = true).
    { rewrite mr_high_bit by lia. apply orb_true_r. }
    assert (Hl1 : Z.testbit (isr_mr_low s) 1 = false).
    { rewrite mr_low_bit by lia. apply andb_false_r. }
    unfold gate, mr; cbn [set_sfr rGPIO negb hd_error reset_pulses].
    rewrite Hl0, Hg', Hh1, Hl1.
    repeat split; try reflexivity; try discriminate.
    intros _. right. right. left. reflexivity.
Qed.

(** ** freq_init, statement by statement *)

Lemma freq_init_run b s :
  freq_init b s =
  if F_MSB b / 1000 =? 0 then Undef
  else
    match ps_code (PS_TMR b) with
    | Some code =>
        Ret tt (armed b code s)
          [PortWrite (gate_low s); PortWrite (pins_idle s)]
    | None =>
        Hang (init_regs b s) [PortWrite (gate_low s); PortWrite (pins_idle s)]
    end.
Proof.
  unfold freq_init, cyc_of, bind at 1.
  destruct (F_MSB b / 1000 =? 0); [reflexivity |].
  unfold armed, init_regs, ps_code, pins_idle, gate_low, code_cyc.
  unfold bind, IO_CLR, IO_SET, IO_OUT, IO_IN, store, load, gets, modify,
    emit, ret, hang, CNTR_PORT, CNTR_DDR, BTN_DDR.
  destruct (BTN_PORT b);
    repeat match goal with
           | |- context [PS_TMR b =? ?k] =>
               destruct (Z.eqb_spec (PS_TMR b) k) as [-> | ?]
           end; reflexivity.
Qed.

Lemma ps_code_supported ps :
  Spec.supported ps = match ps_code ps with Some _ => true | None => false end.
Proof.
  unfold Spec.supported, ps_code, existsb.
  repeat match goal with
         | |- context [ps =? ?k] => destruct (Z.eqb_spec ps k) as [-> | ?]
         end; reflexivity.
Qed.

(** The levels [freq_init] leaves on the two output lines. *)
Lemma pins_idle_gate s : Z.testbit (pins_idle s) 0 = false.
Proof.
  unfold pins_idle, gate_low. change CNTR_MR with (Z.shiftl 1 1).
  change CNTR_CLK with (Z.shiftl 1 0).
  rewrite testbit_set, testbit_clr by lia. cbn. rewrite andb_false_r.
  reflexivity.
Qed.

Lemma pins_idle_mr s : Z.testbit (pins_idle s) 1 = true.
Proof.
  unfold pins_idle. change CNTR_MR with (Z.shiftl 1 1).
  rewrite testbit_set by lia. apply orb_true_r.
Qed.

(** C1, as the code has it: when the formula is defined (the full-scale
    frequency is at least 1 kHz, so its divisor is not zero), [freq_init]
    ends in the fault loop, with both globals untouched and T0IE untouched,
    exactly when the prescaler is not one of 2, 4, ..., 256.  With one of
    these it returns with the reload constant [-(cyc / prescaler)] in eight
    bits, whatever the cycle count is. *)
Theorem freq_init_rejects_iff_prescaler_unsupported (b : build) (s : state) :
  F_MSB b / 1000 <> 0 ->
  (Spec.supported (PS_TMR b) = false ->
   exists s' tr, freq_init b s = Hang s' tr /\
     tmr_prx1 s' = tmr_prx1 s /\ tmr_pr s' = tmr_pr s /\ T0IE s' = T0IE s) /\
  (Spec.supported (PS_TMR b) = true ->
   exists s' tr, freq_init b s = Ret tt s' tr /\
     tmr_prx1 s' = neg_period (code_cyc b) (PS_TMR b) /\
     tmr_pr s' = tmr_prx1 s' /\ T0IE s' = true).
Proof.
  intros Hd. apply Z.eqb_neq in Hd.
  rewrite freq_init_run, Hd, ps_code_supported.
  destruct (ps_code (PS_TMR b)) as [code |]; split; intros H;
    try discriminate H; do 2 eexists; split; try reflexivity.
  - repeat split.
  - repeat split.
Qed.

Lemma freq_init_rejects_iff_prescaler_unsupported_witness :
  exists s' tr,
    freq_init (mkBuild 20000000 6400000 3 None false) power_on = Hang s' tr /\
    tmr_prx1 s' = 0 /\ tmr_pr s' = 0 /\ T0IE s' = false.
Proof.
  apply (freq_init_rejects_iff_prescaler_unsupported
           (mkBuild 20000000 6400000 3 None false) power_on).
  - vm_compute. discriminate.
  - reflexivity.
Defined.

(** C1 fails as stated: 20 MHz, 6.4 MHz and prescaler 32 give 1600 cycles,
    exact and divisible by 32, and 1600 / 32 = 50 > 25; the configuration is
    not admissible, yet [freq_init] returns with the reload constant
    206 = 256 - 50 and the timer interrupt enabled. *)
Lemma inadmissible_period_is_not_rejected :
  Spec.admissible 20000000 6400000 32 = false /\
  Spec.cycles 20000000 6400000 / 32 = 50 /\
  exists s' tr,
    freq_init (mkBuild 20000000 6400000 32 None false) power_on = Ret tt s' tr /\
    tmr_prx1 s' = 206 /\ tmr_pr s' = 206 /\ T0IE s' = true.
Proof.
  split; [reflexivity | split; [reflexivity |]].
  do 2 eexists. split; [vm_compute; reflexivity |].
  repeat split.
Qed.

(** C3. Configuration determinism: with the documented combinations, from any
    state and whatever the button and [char] options are, [freq_init] returns
    with a reload constant of magnitude 25, 20, 15 and 25, which is also the
    spec's cycles / prescaler. *)
Theorem documented_magnitudes (btn : option sfr) (sgn : bool) (s : state) :
  (exists s' tr,
     freq_init (mkBuild 20000000 6400000 64 btn sgn) s = Ret tt s' tr /\
     magnitude (tmr_prx1 s') = 25 /\ tmr_prx1 s' = 256 - 25 /\
     Spec.cycles 20000000 6400000 / 64 = 25) /\
  (exists s' tr,
     freq_init (mkBuild 16000000 6400000 64 btn sgn) s = Ret tt s' tr /\
     magnitude (tmr_prx1 s') = 20 /\ tmr_prx1 s' = 256 - 20 /\
     Spec.cycles 16000000 6400000 / 64 = 20) /\
  (exists s' tr,
     freq_init (mkBuild 12000000 6400000 64 btn sgn) s = Ret tt s' tr /\
     magnitude (tmr_prx1 s') = 15 /\ tmr_prx1 s' = 256 - 15 /\
     Spec.cycles 12000000 6400000 / 64 = 15) /\
  (exists s' tr,
     freq_init (mkBuild 20000000 3200000 128 btn sgn) s = Ret tt s' tr /\
     magnitude (tmr_prx1 s') = 25 /\ tmr_prx1 s' = 256 - 25 /\
     Spec.cycles 20000000 3200000 / 128 = 25).
Proof.
  repeat split; rewrite freq_init_run; do 2 eexists;
    (split; [reflexivity | repeat split]).
Qed.

(** ** The timer between two expiries *)

Lemma tmr0_tick_frame s :
  rGPIO (tmr0_tick s) = rGPIO s /\ T0IE (tmr0_tick s) = T0IE s /\
  GIE (tmr0_tick s) = GIE s /\ tmr_pr (tmr0_tick s) = tmr_pr s /\
  tmr_prx1 (tmr0_tick s) = tmr_prx1 s.
Proof.
  unfold tmr0_tick. destruct (u8 (TMR0 s + 1) =? 0); repeat split.
Qed.

Lemma tmr0_tick_TMR0 s : TMR0 (tmr0_tick s) = u8 (TMR0 s + 1).
Proof.
  unfold tmr0_tick. destruct (u8 (TMR0 s + 1) =? 0); reflexivity.
Qed.

Lemma tmr0_tick_T0IF s :
  T0IF (tmr0_tick s) = T0IF s || (u8 (TMR0 s + 1) =? 0).
Proof.
  unfold tmr0_tick. destruct (u8 (TMR0 s + 1) =? 0); cbn.
  - symmetry. apply orb_true_r.
  - symmetry. apply orb_false_r.
Qed.

(** Closed form of [k] increments from a preload [TMR0 s]. *)
Lemma ticks_closed k s :
  0 <= TMR0 s < 256 ->
  TMR0 (ticks k s) = (TMR0 s + Z.of_nat k) mod 256 /\
  T0IF (ticks k s) = T0IF s || (256 - TMR0 s <=? Z.of_nat k).
Proof.
  intros Hp. induction k as [| k [IHt IHf]].
  - cbn [ticks]. rewrite Z.add_0_r, Z.mod_small by exact Hp. split.
    + reflexivity.
    + replace (256 - TMR0 s <=? Z.of_nat 0) with false.
      * symmetry. apply orb_false_r.
      * symmetry. apply Z.leb_gt. change (Z.of_nat 0) with 0. lia.
  - cbn [ticks]. rewrite tmr0_tick_TMR0, tmr0_tick_T0IF, IHt, IHf.
    unfold u8. change (2 ^ 8) with 256.
    rewrite Nat2Z.inj_succ. split.
    + rewrite Z.add_mod_idemp_l by lia. f_equal. lia.
    + rewrite Z.add_mod_idemp_l by lia. rewrite <- orb_assoc. f_equal.
      destruct (Z.leb_spec (256 - TMR0 s) (Z.of_nat k)) as [Hk | Hk];
        destruct (Z.leb_spec (256 - TMR0 s) (Z.succ (Z.of_nat k))) as [Hk' | Hk'];
        try lia; cbn [orb]; try reflexivity.
      * apply Z.eqb_eq.
        replace (TMR0 s + Z.of_nat k + 1) with (1 * 256) by lia.
        apply Z.mod_mul. lia.
      * apply Z.eqb_neq. rewrite Z.mod_small by lia. lia.
Qed.

(** A cleared flag and a preload of [256 - n] give the expiry at tick [n]. *)
Lemma expires_at_preload s n :
  T0IF s = false -> 0 < n <= 256 -> TMR0 s = 256 - n ->
  expires_at s (Z.to_nat n).
Proof.
  intros Hf Hn Hp. assert (Hr : 0 <= TMR0 s < 256) by lia.
  split.
  - destruct (ticks_closed (Z.to_nat n) s Hr) as [_ ->].
    rewrite Hf. cbn [orb]. apply Z.leb_le. lia.
  - intros k Hk. destruct (ticks_closed k s Hr) as [_ ->].
    rewrite Hf. cbn [orb]. apply Z.leb_gt. lia.
Qed.

Lemma expires_at_unique s n m : expires_at s n -> expires_at s m -> n = m.
Proof.
  intros [Hn Hn'] [Hm Hm'].
  destruct (Nat.lt_trichotomy n m) as [H | [H | H]]; [| exact H |].
  - specialize (Hm' n H). congruence.
  - specialize (Hn' m H). congruence.
Qed.

(** ** C integer conversions *)

Lemma u8_u16 x : u8 (u16 x) = u8 x.
Proof.
  unfold u8, u16. apply Z.mod_mod_divide. exists (2 ^ 8). reflexivity.
Qed.

Lemma u8_s16 x : u8 (s16 x) = u8 x.
Proof.
  unfold s16. destruct (u16 x <? 2 ^ 15).
  - apply u8_u16.
  - rewrite <- (u8_u16 x). unfold u8.
    change (2 ^ 16) with (256 * 2 ^ 8).
    rewrite <- Z.add_opp_r, <- Z.mul_opp_l. apply Z.mod_add. lia.
Qed.

Lemma u8_promote sgn c : u8 (promote sgn c) = u8 c.
Proof.
  unfold promote. destruct sgn; [| reflexivity].
  destruct (c <? 2 ^ 7); [reflexivity |]. unfold u8.
  change (c - 2 ^ 8) with (c + (-1) * 2 ^ 8). apply Z.mod_add. lia.
Qed.

(** [10 * tmr_prx1] stored in a [char], for either signedness of [char]. *)
Lemma times_ten_char sgn c : u8 (s16 (10 * promote sgn c)) = u8 (10 * c).
Proof.
  rewrite u8_s16. unfold u8.
  rewrite <- (Z.mul_mod_idemp_r 10 (promote sgn c)) by lia.
  fold (u8 (promote sgn c)). rewrite u8_promote. unfold u8.
  apply Z.mul_mod_idemp_r. lia.
Qed.

Lemma neg_period_mod cyc ps : neg_period cyc ps = (- (cyc / ps)) mod 256.
Proof. unfold neg_period. apply u8_u16. Qed.

(** What the handler does to the timer and leaves alone. *)
Lemma isr_timer s :
  exists s' tr,
    isr s = Ret tt s' tr /\ T0IF s' = false /\ TMR0 s' = tmr_pr s /\
    tmr_pr s' = tmr_pr s /\ tmr_prx1 s' = tmr_prx1 s /\
    T0IE s' = T0IE s /\ GIE s' = GIE s.
Proof.
  rewrite isr_run. cbv zeta.
  destruct (Z.testbit (isr_toggled s) 0); do 2 eexists;
    (split; [reflexivity | repeat split]).
Qed.

(** ** Legal configurations: the code's arithmetic is the spec's *)

Lemma supported_range ps : Spec.supported ps = true -> 2 <= ps <= 256.
Proof.
  unfold Spec.supported, existsb.
  repeat match goal with
         | |- context [ps =? ?k] => destruct (Z.eqb_spec ps k) as [-> | ?]
         end; cbn [orb]; intros H; try lia; discriminate H.
Qed.

Lemma legal_facts b :
  Spec.legal (F_CLK b) (F_MSB b) (PS_TMR b) = true ->
  F_MSB b / 1000 <> 0 /\
  Spec.supported (PS_TMR b) = true /\
  code_cyc b = Spec.cycles (F_CLK b) (F_MSB b) /\
  1 <= Spec.cycles (F_CLK b) (F_MSB b) / PS_TMR b <= 25.
Proof.
  unfold Spec.legal, Spec.admissible, Spec.exact, Spec.divisible.
  rewrite !andb_true_iff, !negb_true_iff, !Z.eqb_eq, !Z.eqb_neq,
    !Z.leb_le, !Z.ltb_lt.
  intros [[[[[Ho Ho'] Hf] Hf'] Hs] [[Hx [Hps Hdiv]] Hle]].
  destruct Hx as [[[[_ _] _] Hd] Hex].
  pose proof (supported_range _ Hs) as Hr.
  set (q := F_CLK b / 1000000 / 4) in *.
  set (d := F_MSB b / 1000) in *.
  assert (Hq : 1 <= q <= 1073).
  { subst q. split.
    - apply Z.div_le_lower_bound; [lia |].
      apply Z.div_le_lower_bound; lia.
    - apply Z.lt_succ_r. apply Z.div_lt_upper_bound; [lia |].
      apply Z.div_lt_upper_bound; lia. }
  assert (Hd0 : 0 < d).
  { assert (0 <= d) by (subst d; apply Z.div_pos; lia). lia. }
  unfold code_cyc, Spec.cycles in *. fold q d in Hle, Hdiv |- *.
  change (Z.shiftl 1000 11) with 2048000.
  change (1000 * 2048) with 2048000 in *.
  assert (Hc0 : 0 < q * 2048000 / d).
  { pose proof (Z.div_mod (q * 2048000) d ltac:(lia)) as H.
    rewrite Hex in H. nia. }
  assert (Hn0 : 0 < q * 2048000 / d / PS_TMR b).
  { pose proof (Z.div_mod (q * 2048000 / d) (PS_TMR b) ltac:(lia)) as H.
    rewrite Hdiv in H. nia. }
  assert (Hc : q * 2048000 / d < 26 * PS_TMR b).
  { pose proof (Z.mul_succ_div_gt (q * 2048000 / d) (PS_TMR b)) as H.
    specialize (H ltac:(lia)). nia. }
  repeat split; try assumption; try lia.
  unfold u32, u16. rewrite (Z.mod_small (q * 2048000)) by lia.
  apply Z.mod_small. lia.
Qed.

(** C4. Reload-constant encoding: for every legal configuration [freq_init]
    returns with [tmr_prx1] (and [tmr_pr]) equal to [-(cycles / prescaler)]
    modulo 256, where cycles is the spec's formula and cycles / prescaler is
    between 1 and 25; and a handler run that loads this value leaves the
    timer expiring after exactly cycles / prescaler increments. *)
Theorem reload_constant_encoding (b : build) (s : state) :
  Spec.legal (F_CLK b) (F_MSB b) (PS_TMR b) = true ->
  let n := Spec.cycles (F_CLK b) (F_MSB b) / PS_TMR b in
  exists s' tr,
    freq_init b s = Ret tt s' tr /\
    tmr_prx1 s' = (- n) mod 256 /\
    tmr_pr s' = tmr_prx1 s' /\
    1 <= n <= 25 /\
    forall t, tmr_pr t = tmr_prx1 s' ->
      exists t' tr', isr t = Ret tt t' tr' /\ expires_at t' (Z.to_nat n).
Proof.
  intros Hl n. destruct (legal_facts b Hl) as (Hd & Hs & Hc & Hn).
  fold n in Hn. apply Z.eqb_neq in Hd.
  rewrite freq_init_run, Hd. rewrite ps_code_supported in Hs.
  destruct (ps_code (PS_TMR b)) as [code |]; [| discriminate Hs].
  do 2 eexists. split; [reflexivity |].
  assert (Hx : tmr_prx1 (armed b code s) = (- n) mod 256).
  { unfold armed; cbn. rewrite neg_period_mod, Hc. reflexivity. }
  split; [exact Hx |]. split; [reflexivity |]. split; [exact Hn |].
  intros t Ht. destruct (isr_timer t) as (t' & tr' & Hi & Hf & Ht0 & _).
  exists t', tr'. split; [exact Hi |].
  apply expires_at_preload; [exact Hf | lia |].
  rewrite Ht0, Ht, Hx.
  replace (- n) with (256 - n + (-1) * 256) by lia.
  rewrite Z.mod_add by lia. apply Z.mod_small. lia.
Qed.

Lemma reload_constant_encoding_witness :
  exists s' tr,
    freq_init (shipped false) power_on = Ret tt s' tr /\
    tmr_prx1 s' = (- 15) mod 256 /\
    tmr_pr s' = tmr_prx1 s' /\
    1 <= 15 <= 25 /\
    forall t, tmr_pr t = tmr_prx1 s' ->
      exists t' tr', isr t = Ret tt t' tr' /\ expires_at t' 15.
Proof.
  apply (reload_constant_encoding (shipped false) power_on).
  vm_compute. reflexivity.
Defined.

(** ** The foreground loop, statement by statement *)

Lemma loop_body_run b s :
  loop_body b s =
  match BTN_PORT b with
  | None => Ret tt s []
  | Some port =>
      if Z.testbit (get_sfr port s) 3
      then
        let v := u8 (Z.land (get_sfr port s) (Z.lnot LED_PIN)) in
        Ret tt (set_sfr port v (set_tmr_pr (tmr_prx1 s) s)) (port_trace port v)
      else
        let v := u8 (Z.lor (get_sfr port s) LED_PIN) in
        Ret tt
          (set_sfr port v
             (set_tmr_pr (u8 (s16 (10 * promote (char_signed b) (tmr_prx1 s)))) s))
          (port_trace port v)
  end.
Proof.
  unfold loop_body. destruct (BTN_PORT b) as [port |]; [| reflexivity].
  pose proof (land_pin_eqb (get_sfr port s) 3 ltac:(lia)) as Hc.
  change (Z.shiftl 1 3) with BTN_PIN in Hc.
  unfold bind at 1. unfold IO_GET at 1. unfold bind at 1, load, gets, ret.
  cbv beta iota. rewrite Hc.
  destruct (Z.testbit (get_sfr port s) 3); cbv [negb];
    unfold bind, IO_SET, IO_CLR, store, load, gets, modify, emit, ret;
    destruct port; reflexivity.
Qed.

(** A turn of the loop leaves the timer, the interrupt bits, the nominal
    constant and the two counter lines alone and emits no delay. *)
Lemma loop_body_frame b s :
  exists s' tr,
    loop_body b s = Ret tt s' tr /\
    TMR0 s' = TMR0 s /\ T0IF s' = T0IF s /\ T0IE s' = T0IE s /\
    GIE s' = GIE s /\ tmr_prx1 s' = tmr_prx1 s /\
    gate s' = gate s /\ mr s' = mr s /\ has_delay tr = false.
Proof.
  rewrite loop_body_run. destruct (BTN_PORT b) as [port |].
  - cbv zeta. unfold gate, mr. change LED_PIN with (Z.shiftl 1 2).
    destruct (Z.testbit (get_sfr port s) 3); do 2 eexists;
      (split; [reflexivity |]); destruct port; cbn [set_sfr set_tmr_pr
        TMR0 T0IF T0IE GIE tmr_prx1 rGPIO get_sfr port_trace has_delay
        existsb is_delay orb];
      rewrite ?testbit_set, ?testbit_clr by lia;
      cbn [Z.eqb negb]; rewrite ?andb_true_r, ?orb_false_r;
      repeat split.
  - do 2 eexists. split; [reflexivity |]. repeat split.
Qed.

(** C5, as the code has it: in a build with [BTN_PORT] defined as GPIO, every
    turn of the foreground loop returns; it samples the level of the button
    pin (bit 3).  When the pin reads 0 it stores [10 * tmr_prx1], kept to the
    eight bits of a [char], in [tmr_pr] and drives the LED pin (bit 2) high;
    otherwise it stores [tmr_prx1] in [tmr_pr] and drives the LED pin low.
    [tmr_prx1] does not change, and the port write is the only event. *)
Theorem range_select_shim (b : build) (s : state) :
  BTN_PORT b = Some GPIO ->
  exists s' tr,
    loop_body b s = Ret tt s' tr /\
    step b (mkSys Looping s) Iter = (mkSys Looping s', tr) /\
    tmr_prx1 s' = tmr_prx1 s /\
    tr = [PortWrite (rGPIO s')] /\
    (Z.testbit (rGPIO s) 3 = false ->
     tmr_pr s' = (10 * tmr_prx1 s) mod 256 /\ Z.testbit (rGPIO s') 2 = true) /\
    (Z.testbit (rGPIO s) 3 = true ->
     tmr_pr s' = tmr_prx1 s /\ Z.testbit (rGPIO s') 2 = false).
Proof.
  intros Hb. cbn [step sys_mode sys_state]. unfold exec.
  rewrite loop_body_run, Hb. cbv zeta. cbn [get_sfr].
  change LED_PIN with (Z.shiftl 1 2).
  destruct (Z.testbit (rGPIO s) 3); do 2 eexists;
    (split; [reflexivity |]); (split; [reflexivity |]);
    cbn [set_sfr set_tmr_pr tmr_prx1 tmr_pr rGPIO port_trace];
    repeat split; try discriminate.
  - rewrite testbit_clr by lia. apply andb_false_r.
  - apply times_ten_char.
  - rewrite testbit_set by lia. apply orb_true_r.
Qed.

Lemma range_select_shim_witness :
  exists s' tr,
    loop_body (mkBuild 12000000 6400000 64 (Some GPIO) true)
      (mkState 2 0 0 false false false 5 false true true 0 241 241)
    = Ret tt s' tr /\
    tmr_prx1 s' = 241 /\
    tr = [PortWrite (rGPIO s')] /\
    (Z.testbit 2 3 = false ->
     tmr_pr s' = (10 * 241) mod 256 /\ Z.testbit (rGPIO s') 2 = true).
Proof.
  destruct (range_select_shim
              (mkBuild 12000000 6400000 64 (Some GPIO) true)
              (mkState 2 0 0 false false false 5 false true true 0 241 241))
    as (s' & tr & H1 & _ & H2 & H3 & H4 & _).
  - reflexivity.
  - exists s', tr. auto.
Defined.

(** C5 fails as stated on the source as configured: [BTN_PORT] is not
    defined, and with the button pin low (bit 3 of GPIO reads 0) a turn of
    the loop changes nothing; [tmr_pr] stays at the nominal 241 instead of
    [10 * 241] modulo 256 = 106, and the LED pin stays low. *)
Lemma shipped_loop_ignores_button :
  exists s1 tr1 s2,
    freq_init (shipped false) power_on = Ret tt s1 tr1 /\
    Z.testbit (rGPIO s1) 3 = false /\
    loop_body (shipped false) s1 = Ret tt s2 [] /\
    s2 = s1 /\
    tmr_pr s2 = 241 /\ (10 * tmr_prx1 s1) mod 256 = 106 /\
    Z.testbit (rGPIO s2) 2 = false.
Proof.
  do 3 eexists. split; [vm_compute; reflexivity |].
  repeat split.
Qed.

(** ** The system, stimulus by stimulus *)

Lemma dispatch_idle s :
  GIE s && T0IE s && T0IF s = false -> dispatch s = (s, []).
Proof. intros H. unfold dispatch. rewrite H. reflexivity. Qed.

Lemma dispatch_fires s :
  GIE s && T0IE s && T0IF s = true ->
  exists s' tr, isr s = Ret tt s' tr /\ dispatch s = (s', tr).
Proof.
  intros H. unfold dispatch, exec. rewrite H.
  destruct (isr_returns s) as (s' & tr & Hi). rewrite Hi. eauto.
Qed.

(** Either the handler is not entered, or it runs to its end. *)
Lemma dispatch_cases s :
  dispatch s = (s, []) \/
  exists s' tr, isr s = Ret tt s' tr /\ dispatch s = (s', tr).
Proof.
  destruct (GIE s && T0IE s && T0IF s) eqn:H.
  - right. apply dispatch_fires. exact H.
  - left. apply dispatch_idle. exact H.
Qed.

Lemma button_bits level g j :
  0 <= j < 8 -> j <> 3 ->
  Z.testbit (u8 (set_pin BTN_PIN level g)) j = Z.testbit g j.
Proof.
  intros Hj Hne. unfold set_pin. change BTN_PIN with (Z.shiftl 1 3).
  assert (He : (j =? 3) = false) by (apply Z.eqb_neq; exact Hne).
  destruct level.
  - rewrite testbit_set, He by lia. apply orb_false_r.
  - rewrite testbit_clr, He by lia. apply andb_true_r.
Qed.

(** What the handler does to the two counter lines. *)
Lemma isr_lines s :
  exists s' tr,
    isr s = Ret tt s' tr /\
    gate s' = negb (gate s) /\
    has_delay tr = negb (gate s) /\
    mr s' = mr s && gate s /\
    reset_pulses tr = (if gate s then 0%nat else 1%nat).
Proof.
  destruct (gate s) eqn:Hg.
  - rewrite (isr_closing s Hg). do 2 eexists. split; [reflexivity |].
    unfold gate, mr in *. cbn [set_sfr rGPIO reset_pulses].
    rewrite !toggled_bit by lia. rewrite Hg. cbn [Z.eqb].
    rewrite xorb_false_r, andb_true_r. repeat split.
  - rewrite (isr_opening s Hg). do 2 eexists. split; [reflexivity |].
    assert (Hl0 : Z.testbit (isr_mr_low s) 0 = true).
    { rewrite mr_low_bit, mr_high_bit, toggled_gate, Hg by lia. reflexivity. }
    assert (Hh1 : Z.testbit (isr_mr_high s) 1 = true).
    { rewrite mr_high_bit by lia. apply orb_true_r. }
    assert (Hl1 : Z.testbit (isr_mr_low s) 1 = false).
    { rewrite mr_low_bit by lia. apply andb_false_r. }
    unfold gate, mr in *. cbn [set_sfr rGPIO reset_pulses].
    rewrite Hl0, Hh1, Hl1, andb_false_r. repeat split.
Qed.

Lemma has_delay_app t1 t2 : has_delay (t1 ++ t2) = has_delay t1 || has_delay t2.
Proof. apply existsb_app. Qed.

(** No stimulus changes the mode, the interrupt enables or the nominal
    constant. *)
Lemma step_frame b y x y' tr :
  step b y x = (y', tr) ->
  sys_mode y' = sys_mode y /\
  T0IE (sys_state y') = T0IE (sys_state y) /\
  GIE (sys_state y') = GIE (sys_state y) /\
  tmr_prx1 (sys_state y') = tmr_prx1 (sys_state y).
Proof.
  destruct y as [md s]. destruct x as [| | level]; cbn [step sys_mode sys_state].
  - destruct (tmr0_tick_frame s) as (_ & He & Hg & _ & Hx).
    destruct (dispatch_cases (tmr0_tick s)) as [Hd | (s' & t & Hi & Hd)];
      rewrite Hd; intros [= <- <-]; cbn [sys_mode sys_state].
    + auto.
    + destruct (isr_timer (tmr0_tick s)) as (s2 & t2 & Hi2 & _ & _ & _ & H1 & H2 & H3).
      rewrite Hi in Hi2. injection Hi2 as <- <-.
      rewrite H1, H2, H3. auto.
  - destruct md.
    + destruct (loop_body_frame b s) as (s' & t & Hl & _ & _ & He & Hg & Hx & _).
      unfold exec. rewrite Hl. intros [= <- <-]. cbn [sys_mode sys_state]. auto.
    + intros [= <- <-]. auto.
  - intros [= <- <-]. cbn [sys_mode sys_state]. auto.
Qed.

(** The reset line after a stimulus: unchanged, unless the stimulus pulsed
    it, and then it is low. *)
Lemma step_mr b y x y' tr :
  step b y x = (y', tr) ->
  mr (sys_state y') = mr (sys_state y) && negb (has_delay tr).
Proof.
  destruct y as [md s]. destruct x as [| | level]; cbn [step sys_mode sys_state].
  - assert (Hm : mr (tmr0_tick s) = mr s /\ gate (tmr0_tick s) = gate s).
    { unfold mr, gate. destruct (tmr0_tick_frame s) as (-> & _). auto. }
    destruct Hm as [Hm Hg].
    destruct (dispatch_cases (tmr0_tick s)) as [Hd | (s' & t & Hi & Hd)];
      rewrite Hd; intros [= <- <-]; cbn [sys_state].
    + rewrite Hm. symmetry. apply andb_true_r.
    + destruct (isr_lines (tmr0_tick s)) as (s2 & t2 & Hi2 & _ & Hdl & Hmr & _).
      rewrite Hi in Hi2. injection Hi2 as <- <-.
      rewrite Hmr, Hdl, Hm, negb_involutive. reflexivity.
  - destruct md.
    + destruct (loop_body_frame b s) as (s' & t & Hl & _ & _ & _ & _ & _ & _ & Hm & Hd).
      unfold exec. rewrite Hl. intros [= <- <-]. cbn [sys_state].
      rewrite Hm, Hd. symmetry. apply andb_true_r.
    + intros [= <- <-]. symmetry. apply andb_true_r.
  - intros [= <- <-]. cbn [sys_state has_delay existsb negb].
    unfold mr. cbn [set_sfr rGPIO]. rewrite button_bits by lia.
    symmetry. apply andb_true_r.
Qed.

Lemma run_mr b xs y y' tr :
  run b y xs = (y', tr) ->
  mr (sys_state y') = mr (sys_state y) && negb (has_delay tr).
Proof.
  revert y y' tr. induction xs as [| x xs IH]; intros y y' tr; cbn [run].
  - intros [= <- <-]. symmetry. apply andb_true_r.
  - destruct (step b y x) as [y1 t1] eqn:Hs.
    destruct (run b y1 xs) as [y2 t2] eqn:Hr. intros [= <- <-].
    rewrite (IH _ _ _ Hr), (step_mr _ _ _ _ _ Hs), has_delay_app, negb_orb.
    symmetry. apply andb_assoc.
Qed.

(** In the fault loop with the timer interrupt disabled, a stimulus produces
    no event and moves neither counter line. *)
Lemma step_faulted b y x y' tr :
  sys_mode y = Faulted -> T0IE (sys_state y) = false ->
  step b y x = (y', tr) ->
  tr = [] /\
  gate (sys_state y') = gate (sys_state y) /\
  mr (sys_state y') = mr (sys_state y) /\
  tmr_pr (sys_state y') = tmr_pr (sys_state y).
Proof.
  destruct y as [md s]. cbn [sys_mode sys_state]. intros -> He.
  destruct x as [| | level]; cbn [step sys_mode sys_state].
  - destruct (tmr0_tick_frame s) as (Hg & He' & _ & Hp & _).
    rewrite dispatch_idle.
    + intros [= <- <-]. cbn [sys_state]. unfold gate, mr. rewrite Hg. auto.
    + rewrite He', He, andb_false_r. reflexivity.
  - intros [= <- <-]. auto.
  - intros [= <- <-]. cbn [sys_state]. unfold gate, mr. cbn [set_sfr rGPIO tmr_pr].
    rewrite !button_bits by lia. auto.
Qed.

Lemma run_faulted b xs y y' tr :
  sys_mode y = Faulted -> T0IE (sys_state y) = false ->
  run b y xs = (y', tr) ->
  tr = [] /\ sys_mode y' = Faulted /\ T0IE (sys_state y') = false /\
  GIE (sys_state y') = GIE (sys_state y) /\
  gate (sys_state y') = gate (sys_state y) /\
  mr (sys_state y') = mr (sys_state y) /\
  tmr_pr (sys_state y') = tmr_pr (sys_state y) /\
  tmr_prx1 (sys_state y') = tmr_prx1 (sys_state y).
Proof.
  revert y y' tr. induction xs as [| x xs IH]; intros y y' tr Hm He; cbn [run].
  - intros [= <- <-]. repeat split; assumption.
  - destruct (step b y x) as [y1 t1] eqn:Hs.
    destruct (run b y1 xs) as [y2 t2] eqn:Hr. intros [= <- <-].
    destruct (step_frame _ _ _ _ _ Hs) as (Hm1 & He1 & Hg1 & Hx1).
    destruct (step_faulted _ _ _ _ _ Hm He Hs) as (-> & Hga & Hmr & Hp).
    rewrite Hm in Hm1. rewrite He in He1.
    destruct (IH _ _ _ Hm1 He1 Hr) as (-> & ? & ? & HG & Hga' & Hmr' & Hp' & Hx').
    rewrite HG, Hga', Hmr', Hp', Hx', Hg1, Hga, Hmr, Hp, Hx1. repeat split; assumption.
Qed.

(** C6, as the code has it: the fault loop is reached through the prescaler
    only.  With a prescaler that is not one of the eight supported values
    (the formula being defined) and the timer interrupt disabled when
    [freq_init] is entered, the system ends in the fault loop
    with T0IE still clear and global interrupts as they were, the gate-enable
    line low and the reset line high; whatever stimuli follow, no event is
    produced, T0IE stays clear, both lines keep these levels and the two
    globals keep the values they had before [freq_init]. *)
Theorem fault_containment (b : build) (s : state) (xs : list stimulus) :
  F_MSB b / 1000 <> 0 ->
  Spec.supported (PS_TMR b) = false ->
  T0IE s = false ->
  exists y tr y',
    boot b s = Some (y, tr) /\
    sys_mode y = Faulted /\
    T0IE (sys_state y) = false /\ GIE (sys_state y) = GIE s /\
    gate (sys_state y) = false /\ mr (sys_state y) = true /\
    run b y xs = (y', []) /\
    sys_mode y' = Faulted /\
    T0IE (sys_state y') = false /\ GIE (sys_state y') = GIE s /\
    gate (sys_state y') = false /\ mr (sys_state y') = true /\
    tmr_pr (sys_state y') = tmr_pr s /\ tmr_prx1 (sys_state y') = tmr_prx1 s.
Proof.
  intros Hd Hs He. apply Z.eqb_neq in Hd. unfold boot.
  rewrite freq_init_run, Hd. rewrite ps_code_supported in Hs.
  destruct (ps_code (PS_TMR b)); [discriminate Hs |].
  set (y := mkSys Faulted (init_regs b s)).
  destruct (run b y xs) as [y' tr'] eqn:Hr.
  assert (Hg : gate (sys_state y) = false) by apply pins_idle_gate.
  assert (Hm : mr (sys_state y) = true) by apply pins_idle_mr.
  destruct (run_faulted b xs y y' tr' eq_refl He Hr)
    as (-> & Hm' & He' & HG & Hga & Hmr & Hp & Hx).
  exists y, [PortWrite (gate_low s); PortWrite (pins_idle s)], y'.
  rewrite Hga, Hmr, HG, Hp, Hx.
  repeat split; assumption.
Qed.

Lemma fault_containment_witness :
  exists y tr y',
    boot (mkBuild 12000000 6400000 3 None false) power_on = Some (y, tr) /\
    sys_mode y = Faulted /\
    T0IE (sys_state y) = false /\ GIE (sys_state y) = false /\
    gate (sys_state y) = false /\ mr (sys_state y) = true /\
    run (mkBuild 12000000 6400000 3 None false) y [Tick; Iter; Button false; Tick]
    = (y', []) /\
    sys_mode y' = Faulted /\
    T0IE (sys_state y') = false /\ GIE (sys_state y') = false /\
    gate (sys_state y') = false /\ mr (sys_state y') = true /\
    tmr_pr (sys_state y') = 0 /\ tmr_prx1 (sys_state y') = 0.
Proof.
  apply (fault_containment (mkBuild 12000000 6400000 3 None false) power_on
           [Tick; Iter; Button false; Tick]).
  - vm_compute. discriminate.
  - reflexivity.
  - reflexivity.
Defined.

(** C6 fails as stated for a configuration that is invalid by its cycle
    count alone: 20 MHz, 6.4 MHz and prescaler 32 give cycles / prescaler =
    50 > 25, yet from the power-on state (T0IE clear) [main] reaches its loop
    with T0IE and GIE set, and the 256th timer increment runs the handler:
    the gate opens and MR is pulsed and left low. *)
Lemma inadmissible_period_arms_timer :
  Spec.admissible 20000000 6400000 32 = false /\
  Spec.legal 20000000 6400000 32 = false /\
  T0IE power_on = false /\
  exists y tr0 y1 tr1,
    boot (mkBuild 20000000 6400000 32 None false) power_on = Some (y, tr0) /\
    sys_mode y = Looping /\
    T0IE (sys_state y) = true /\ GIE (sys_state y) = true /\
    run (mkBuild 20000000 6400000 32 None false) y (repeat Tick 256)
    = (y1, tr1) /\
    tr1 = [PortWrite 3; PortWrite 3; Nop16; PortWrite 1] /\
    gate (sys_state y1) = true /\ mr (sys_state y1) = false.
Proof.
  split; [reflexivity |]. split; [reflexivity |]. split; [reflexivity |].
  do 4 eexists.
  split; [vm_compute; reflexivity |].
  split; [reflexivity |]. split; [reflexivity |]. split; [reflexivity |].
  split; [vm_compute; reflexivity |].
  repeat split.
Qed.

(** With the button compiled out no stimulus writes [tmr_pr]. *)
Lemma step_nominal b y x y' tr :
  BTN_PORT b = None ->
  step b y x = (y', tr) ->
  tmr_pr (sys_state y') = tmr_pr (sys_state y).
Proof.
  intros Hb. destruct y as [md s].
  destruct x as [| | level]; cbn [step sys_mode sys_state].
  - destruct (tmr0_tick_frame s) as (_ & _ & _ & Hp & _).
    destruct (dispatch_cases (tmr0_tick s)) as [Hd | (s' & t & Hi & Hd)];
      rewrite Hd; intros [= <- <-]; cbn [sys_state].
    + exact Hp.
    + destruct (isr_timer (tmr0_tick s)) as (s2 & t2 & Hi2 & _ & _ & H1 & _).
      rewrite Hi in Hi2. injection Hi2 as <- <-. rewrite H1. exact Hp.
  - destruct md.
    + unfold exec. rewrite loop_body_run, Hb. intros [= <- <-]. reflexivity.
    + intros [= <- <-]. reflexivity.
  - intros [= <- <-]. reflexivity.
Qed.

Lemma run_nominal b xs y y' tr :
  BTN_PORT b = None ->
  run b y xs = (y', tr) ->
  tmr_pr (sys_state y') = tmr_pr (sys_state y) /\
  tmr_prx1 (sys_state y') = tmr_prx1 (sys_state y).
Proof.
  intros Hb. revert y y' tr.
  induction xs as [| x xs IH]; intros y y' tr; cbn [run].
  - intros [= <- <-]. auto.
  - destruct (step b y x) as [y1 t1] eqn:Hs.
    destruct (run b y1 xs) as [y2 t2] eqn:Hr. intros [= <- <-].
    destruct (IH _ _ _ Hr) as [-> ->].
    destruct (step_frame _ _ _ _ _ Hs) as (_ & _ & _ & ->).
    rewrite (step_nominal _ _ _ _ _ Hb Hs). auto.
Qed.

(** C10. The source as configured ([BTN_PORT] not defined, 12 MHz, 6.4 MHz,
    prescaler 64): a turn of the foreground loop does nothing at all;
    [freq_init] returns with [tmr_pr = tmr_prx1] (the constant 241, that is
    -15), and after any sequence of timer increments, handler runs, loop
    turns and button changes [tmr_pr] still equals [tmr_prx1]. *)
Theorem nominal_period_invariant (sgn : bool) (s : state) :
  BTN_PORT (shipped sgn) = None /\
  (forall t, loop_body (shipped sgn) t = Ret tt t []) /\
  exists y tr,
    boot (shipped sgn) s = Some (y, tr) /\
    sys_mode y = Looping /\
    tmr_prx1 (sys_state y) = 241 /\
    tmr_pr (sys_state y) = tmr_prx1 (sys_state y) /\
    forall xs, exists y' tr',
      run (shipped sgn) y xs = (y', tr') /\
      tmr_prx1 (sys_state y') = 241 /\
      tmr_pr (sys_state y') = tmr_prx1 (sys_state y').
Proof.
  split; [reflexivity |]. split; [intros t; reflexivity |].
  unfold boot. rewrite freq_init_run.
  do 2 eexists. split; [reflexivity |]. split; [reflexivity |].
  split; [reflexivity |]. split; [reflexivity |].
  intros xs.
  match goal with
  | |- exists y' tr', run ?b ?y xs = _ /\ _ =>
      destruct (run b y xs) as [y' tr'] eqn:Hr;
      destruct (run_nominal b xs y y' tr' eq_refl Hr) as [Hp Hx]
  end.
  exists y', tr'. split; [reflexivity |]. rewrite Hp, Hx. split; reflexivity.
Qed.

(** ** A gate phase: from one handler run to the next *)

(** While the timer has not rolled over, a stimulus leaves the flag clear
    and the gate where it is; only a timer increment advances TMR0. *)
Lemma step_quiet b y x y' tr :
  T0IF (sys_state y) = false ->
  0 <= TMR0 (sys_state y) ->
  TMR0 (sys_state y) + Z.of_nat (ticks_in [x]) < 256 ->
  step b y x = (y', tr) ->
  T0IF (sys_state y') = false /\
  TMR0 (sys_state y') = TMR0 (sys_state y) + Z.of_nat (ticks_in [x]) /\
  gate (sys_state y') = gate (sys_state y).
Proof.
  destruct y as [md s]. cbn [sys_state]. intros Hf H0 Hlt.
  destruct x as [| | level]; cbn [step sys_mode sys_state ticks_in] in *.
  - change (Z.of_nat 1) with 1 in *.
    assert (Ht : tmr0_tick s = set_TMR0 (TMR0 s + 1) s).
    { unfold tmr0_tick. rewrite u8_small by lia.
      destruct (Z.eqb_spec (TMR0 s + 1) 0); [lia | reflexivity]. }
    rewrite Ht, dispatch_idle.
    + intros [= <- <-]. cbn [sys_state]. auto.
    + cbn [set_TMR0 T0IF]. rewrite Hf. apply andb_false_r.
  - change (Z.of_nat 0) with 0 in *. rewrite Z.add_0_r. destruct md.
    + destruct (loop_body_frame b s) as (s' & t & Hl & Ht & Hf' & _ & _ & _ & Hg & _).
      unfold exec. rewrite Hl. intros [= <- <-]. cbn [sys_state].
      rewrite Ht, Hf', Hg. auto.
    + intros [= <- <-]. auto.
  - change (Z.of_nat 0) with 0 in *. rewrite Z.add_0_r.
    intros [= <- <-]. cbn [sys_state]. unfold gate. cbn [set_sfr rGPIO T0IF TMR0].
    rewrite button_bits by lia. auto.
Qed.

Lemma ticks_in_cons x xs :
  Z.of_nat (ticks_in (x :: xs)) = Z.of_nat (ticks_in [x]) + Z.of_nat (ticks_in xs).
Proof. destruct x; cbn [ticks_in]; lia. Qed.

Lemma run_quiet b xs y y' tr :
  T0IF (sys_state y) = false ->
  0 <= TMR0 (sys_state y) ->
  TMR0 (sys_state y) + Z.of_nat (ticks_in xs) < 256 ->
  run b y xs = (y', tr) ->
  T0IF (sys_state y') = false /\
  TMR0 (sys_state y') = TMR0 (sys_state y) + Z.of_nat (ticks_in xs) /\
  gate (sys_state y') = gate (sys_state y).
Proof.
  revert y y' tr. induction xs as [| x xs IH]; intros y y' tr Hf H0 Hlt.
  - cbn [run ticks_in]. intros [= <- <-]. change (Z.of_nat 0) with 0.
    rewrite Z.add_0_r. auto.
  - cbn [run]. rewrite ticks_in_cons in *.
    destruct (step b y x) as [y1 t1] eqn:Hs.
    destruct (run b y1 xs) as [y2 t2] eqn:Hr. intros [= <- <-].
    destruct (step_quiet b y x y1 t1 Hf H0 ltac:(lia) Hs) as (Hf1 & Ht1 & Hg1).
    destruct (IH y1 y2 t2 Hf1 ltac:(lia) ltac:(lia) Hr) as (Hf2 & Ht2 & Hg2).
    rewrite Hf2, Ht2, Hg2, Ht1, Hg1. repeat split. lia.
Qed.

(** The increment from 255 raises the flag; with the interrupt enabled the
    handler runs at once, flips the gate and reloads the timer from the
    [tmr_pr] of that moment. *)
Lemma step_expiry b y :
  T0IF (sys_state y) = false -> TMR0 (sys_state y) = 255 ->
  GIE (sys_state y) = true -> T0IE (sys_state y) = true ->
  exists y' tr,
    step b y Tick = (y', tr) /\
    gate (sys_state y') = negb (gate (sys_state y)) /\
    TMR0 (sys_state y') = tmr_pr (sys_state y) /\
    T0IF (sys_state y') = false.
Proof.
  destruct y as [md s]. cbn [sys_state step]. intros Hf Ht Hg He.
  assert (Hk : tmr0_tick s = set_T0IF true (set_TMR0 0 s)).
  { unfold tmr0_tick. rewrite Ht. reflexivity. }
  rewrite Hk.
  set (s1 := set_T0IF true (set_TMR0 0 s)).
  destruct (dispatch_fires s1) as (s' & tr & Hi & Hd).
  { subst s1. cbn. rewrite Hg, He. reflexivity. }
  rewrite Hd. exists (mkSys md s'), tr. split; [reflexivity |].
  destruct (isr_lines s1) as (s2 & t2 & Hi2 & Hgate & _).
  rewrite Hi in Hi2. injection Hi2 as <- <-.
  destruct (isr_timer s1) as (s3 & t3 & Hi3 & Hf3 & Ht3 & _).
  rewrite Hi in Hi3. injection Hi3 as <- <-.
  cbn [sys_state]. rewrite Hgate, Hf3, Ht3. repeat split.
Qed.

(** C7. Reload step: a handler run clears T0IF and loads TMR0 with the
    [tmr_pr] of that moment, [p]; from there the flag is first raised by
    increment number [256 - p].  In the running system, whatever the
    foreground loop and the button do in between (including writes to
    [tmr_pr]), the gate keeps its level for the first [256 - p - 1]
    increments, and with the interrupt enabled the next increment runs the
    handler again: the gate flips back and TMR0 is loaded with the [tmr_pr]
    current then. *)
Theorem isr_reloads_timer (s : state) :
  0 <= tmr_pr s < 256 ->
  exists s' tr,
    isr s = Ret tt s' tr /\
    T0IF s' = false /\ TMR0 s' = tmr_pr s /\ gate s' = negb (gate s) /\
    expires_at s' (Z.to_nat (256 - tmr_pr s)) /\
    forall b md xs y tr',
      run b (mkSys md s') xs = (y, tr') ->
      (Z.of_nat (ticks_in xs) < 256 - tmr_pr s ->
       T0IF (sys_state y) = false /\
       TMR0 (sys_state y) = tmr_pr s + Z.of_nat (ticks_in xs) /\
       gate (sys_state y) = gate s') /\
      (Z.of_nat (ticks_in xs) = 256 - tmr_pr s - 1 ->
       GIE s = true -> T0IE s = true ->
       exists y2 tr2,
         step b y Tick = (y2, tr2) /\
         gate (sys_state y2) = gate s /\
         TMR0 (sys_state y2) = tmr_pr (sys_state y) /\
         T0IF (sys_state y2) = false).
Proof.
  intros Hp.
  destruct (isr_timer s) as (s' & tr & Hi & Hf & Ht & _ & _ & He & Hg).
  destruct (isr_lines s) as (s2 & t2 & Hi2 & Hgate & _).
  rewrite Hi in Hi2. injection Hi2 as <- <-.
  exists s', tr. split; [exact Hi |]. split; [exact Hf |].
  split; [exact Ht |]. split; [exact Hgate |]. split.
  - apply expires_at_preload; [exact Hf | lia | lia].
  - intros b md xs y tr' Hr.
    assert (Hq : Z.of_nat (ticks_in xs) < 256 - tmr_pr s ->
                 T0IF (sys_state y) = false /\
                 TMR0 (sys_state y) = tmr_pr s + Z.of_nat (ticks_in xs) /\
                 gate (sys_state y) = gate s').
    { intros Hlt. rewrite <- Ht.
      apply (run_quiet b xs (mkSys md s') y tr'); cbn [sys_state];
        try assumption; lia. }
    split; [exact Hq |].
    intros Hn HG HE. destruct (Hq ltac:(lia)) as (Hf' & Ht' & Hg').
    assert (Hfr : GIE (sys_state y) = true /\ T0IE (sys_state y) = true).
    { clear - Hr HG HE He Hg. revert md s' He Hg y tr' Hr.
      induction xs as [| x xs IH]; intros md s' He Hg y tr'; cbn [run].
      - intros [= <- <-]. cbn [sys_state]. rewrite He, Hg. auto.
      - destruct (step b (mkSys md s') x) as [[md1 s1] t1] eqn:Hs.
        destruct (run b (mkSys md1 s1) xs) as [y2 t2] eqn:Hr.
        intros [= <- <-].
        destruct (step_frame _ _ _ _ _ Hs) as (_ & He1 & Hg1 & _).
        cbn [sys_state] in He1, Hg1.
        apply (IH md1 s1 ltac:(congruence) ltac:(congruence) y2 t2 Hr). }
    destruct Hfr as [HG' HE'].
    destruct (step_expiry b y Hf' ltac:(lia) HG' HE') as (y2 & tr2 & Hs & Hg2 & Ht2 & Hf2).
    exists y2, tr2. rewrite Hg2, Hg', Hgate, negb_involutive. auto.
Qed.

Lemma isr_reloads_timer_witness :
  exists s' tr,
    isr (mkState 2 0 1 false false false 5 true true true 0 241 241)
    = Ret tt s' tr /\
    T0IF s' = false /\ TMR0 s' = 241 /\ gate s' = true /\
    expires_at s' 15.
Proof.
  destruct (isr_reloads_timer
              (mkState 2 0 1 false false false 5 true true true 0 241 241))
    as (s' & tr & H1 & H2 & H3 & H4 & H5 & _).
  - cbn. lia.
  - exists s', tr. auto.
Defined.

(** ** The reset line *)

Lemma boot_lines b s y tr :
  boot b s = Some (y, tr) ->
  gate (sys_state y) = false /\ mr (sys_state y) = true.
Proof.
  unfold boot. rewrite freq_init_run.
  destruct (F_MSB b / 1000 =? 0); [discriminate |].
  destruct (ps_code (PS_TMR b)); intros [= <- <-]; cbn [sys_state];
    unfold gate, mr; cbn; fold (gate_low s); fold (pins_idle s);
    split; first [apply pins_idle_gate | apply pins_idle_mr].
Qed.

(** C8, as the code has it: [freq_init] leaves the reset line high, and it
    stays high until the first reset pulse; once a pulse has been emitted
    the line is low after every stimulus, that is, at every point outside a
    pulse.  A handler run that opens the gate drives MR high, waits the fixed
    delay and drives it low, exactly once; a handler run that closes the gate
    does not touch MR. *)
Theorem reset_line_levels (b : build) (s : state) (y : system) (tr0 : list event) :
  boot b s = Some (y, tr0) ->
  mr (sys_state y) = true /\
  (forall xs y' tr,
     run b y xs = (y', tr) -> mr (sys_state y') = negb (has_delay tr)) /\
  (forall t, exists t' tr,
     isr t = Ret tt t' tr /\
     (gate t = false ->
      tr = [PortWrite (isr_toggled t); PortWrite (isr_mr_high t); Nop16;
            PortWrite (isr_mr_low t)] /\
      Z.testbit (isr_mr_high t) 1 = true /\
      Z.testbit (isr_mr_low t) 1 = false /\
      reset_pulses tr = 1%nat /\ mr t' = false) /\
     (gate t = true ->
      tr = [PortWrite (isr_toggled t)] /\
      reset_pulses tr = 0%nat /\ mr t' = mr t)).
Proof.
  intros Hb. destruct (boot_lines b s y tr0 Hb) as [_ Hm].
  split; [exact Hm |]. split.
  - intros xs y' tr Hr. rewrite (run_mr b xs y y' tr Hr), Hm. reflexivity.
  - intros t. destruct (isr_lines t) as (t' & tr & Hi & _ & _ & Hmr & Hp).
    exists t', tr. split; [exact Hi |]. split; intros Hg.
    + rewrite (isr_opening t Hg) in Hi. injection Hi as <- <-.
      rewrite Hg in Hp, Hmr. rewrite andb_false_r in Hmr.
      split; [reflexivity |]. split.
      * rewrite mr_high_bit by lia. apply orb_true_r.
      * split; [rewrite mr_low_bit by lia; apply andb_false_r |].
        split; [exact Hp | exact Hmr].
    + rewrite (isr_closing t Hg) in Hi. injection Hi as <- <-.
      rewrite Hg in Hp, Hmr. rewrite andb_true_r in Hmr.
      split; [reflexivity |]. split; [exact Hp | exact Hmr].
Qed.

Lemma reset_line_levels_witness :
  mr (set_GIE true (armed (shipped false) 5 power_on)) = true /\
  (forall xs y' tr,
     run (shipped false)
       (mkSys Looping (set_GIE true (armed (shipped false) 5 power_on))) xs
     = (y', tr) ->
     mr (sys_state y') = negb (has_delay tr)).
Proof.
  destruct (reset_line_levels (shipped false) power_on
              (mkSys Looping (set_GIE true (armed (shipped false) 5 power_on)))
              [PortWrite 0; PortWrite 2]) as (H1 & H2 & _).
  - reflexivity.
  - split; [exact H1 | exact H2].
Defined.

(** C8 fails as stated: in the source as configured, started from the
    power-on state, the first expiry (256 increments, TMR0 starting at 0)
    opens the gate and pulses MR; when the handler has returned the reset
    line is low, and it is still low after the next 15 increments, when the
    handler has closed the gate again. *)
Lemma reset_line_low_between_pulses :
  exists y tr0 y1 tr1 y2 tr2,
    boot (shipped false) power_on = Some (y, tr0) /\
    mr (sys_state y) = true /\
    run (shipped false) y (repeat Tick 256) = (y1, tr1) /\
    tr1 = [PortWrite 3; PortWrite 3; Nop16; PortWrite 1] /\
    mr (sys_state y1) = false /\
    run (shipped false) y1 (repeat Tick 15) = (y2, tr2) /\
    tr2 = [PortWrite 0] /\
    mr (sys_state y2) = false.
Proof.
  do 6 eexists.
  split; [vm_compute; reflexivity |].
  split; [reflexivity |].
  split; [vm_compute; reflexivity |].
  split; [reflexivity |].
  split; [reflexivity |].
  split; [vm_compute; reflexivity |].
  split; reflexivity.
Qed.

(** ** The extended range *)

Lemma neg_mod_256 n : 0 < n <= 256 -> (- n) mod 256 = 256 - n.
Proof.
  intros Hn. replace (- n) with (256 - n + (-1) * 256) by lia.
  rewrite Z.mod_add by lia. apply Z.mod_small. lia.
Qed.

Lemma magnitude_neg n : 0 <= n < 256 -> magnitude ((- n) mod 256) = n.
Proof.
  intros Hn. unfold magnitude, u8. change (2 ^ 8) with 256.
  destruct (Z.eq_dec n 0) as [-> | Hne]; [reflexivity |].
  rewrite (neg_mod_256 n) by lia.
  replace (- (256 - n)) with (n + (-1) * 256) by lia.
  rewrite Z.mod_add by lia. apply Z.mod_small. lia.
Qed.

(** C9. The extended range: for every legal configuration the magnitude of
    the reload constant is cycles / prescaler, between 1 and 25, so ten times
    it is at most 250; in a build with the button on GPIO, when its pin is
    low the loop stores in [tmr_pr] the value of the C expression
    [10 * tmr_prx1] kept to eight bits, which is [-(10 * magnitude)] modulo
    256 for a signed and for an unsigned [char] alike; and a handler run that
    loads it leaves the timer expiring after exactly ten times the
    magnitude. *)
Theorem extended_preload (b : build) (s : state) :
  Spec.legal (F_CLK b) (F_MSB b) (PS_TMR b) = true ->
  BTN_PORT b = Some GPIO ->
  let n := Spec.cycles (F_CLK b) (F_MSB b) / PS_TMR b in
  1 <= n <= 25 /\ 10 * n <= 250 /\
  exists s1 tr1,
    freq_init b s = Ret tt s1 tr1 /\
    magnitude (tmr_prx1 s1) = n /\
    forall t, tmr_prx1 t = tmr_prx1 s1 -> Z.testbit (rGPIO t) 3 = false ->
      exists t1 tr t2 tr2,
        loop_body b t = Ret tt t1 tr /\
        tmr_pr t1 = u8 (s16 (10 * promote (char_signed b) (tmr_prx1 t))) /\
        tmr_pr t1 = (- (10 * n)) mod 256 /\
        isr t1 = Ret tt t2 tr2 /\ expires_at t2 (Z.to_nat (10 * n)).
Proof.
  intros Hl Hb n. destruct (legal_facts b Hl) as (Hd & Hs & Hc & Hn).
  fold n in Hn. apply Z.eqb_neq in Hd.
  split; [exact Hn |]. split; [lia |].
  rewrite freq_init_run, Hd. rewrite ps_code_supported in Hs.
  destruct (ps_code (PS_TMR b)) as [code |]; [| discriminate Hs].
  do 2 eexists. split; [reflexivity |].
  assert (Hx : tmr_prx1 (armed b code s) = (- n) mod 256).
  { unfold armed; cbn. rewrite neg_period_mod, Hc. reflexivity. }
  split; [rewrite Hx; apply magnitude_neg; lia |].
  intros t Ht Hbtn. rewrite loop_body_run, Hb. cbn [get_sfr]. rewrite Hbtn.
  cbv zeta.
  assert (Hpr : u8 (s16 (10 * promote (char_signed b) (tmr_prx1 t)))
                = (- (10 * n)) mod 256).
  { rewrite times_ten_char, Ht, Hx. unfold u8. change (2 ^ 8) with 256.
    rewrite Z.mul_mod_idemp_r by lia. f_equal. lia. }
  match goal with
  | |- exists t1 tr t2 tr2, Ret tt ?a ?c = _ /\ _ =>
      destruct (isr_timer a) as (t2 & tr2 & Hi & Hf & Ht0 & _);
      exists a, c, t2, tr2
  end.
  split; [reflexivity |].
  cbn [set_sfr set_tmr_pr tmr_pr] in *. split; [reflexivity |].
  split; [exact Hpr |]. split; [exact Hi |].
  apply expires_at_preload; [exact Hf | lia |].
  rewrite Ht0, Hpr. apply neg_mod_256. lia.
Qed.

Lemma extended_preload_witness :
  1 <= 15 <= 25 /\ 10 * 15 <= 250 /\
  exists s1 tr1,
    freq_init (mkBuild 12000000 6400000 64 (Some GPIO) true) power_on
    = Ret tt s1 tr1 /\
    magnitude (tmr_prx1 s1) = 15.
Proof.
  destruct (extended_preload
              (mkBuild 12000000 6400000 64 (Some GPIO) true) power_on)
    as (H1 & H2 & s1 & tr1 & H3 & H4 & _).
  - vm_compute. reflexivity.
  - reflexivity.
  - split; [exact H1 |]. split; [exact H2 |]. exists s1, tr1. auto.
Defined.

(** * Further properties of the three functions *)

(** ** The handler and the rest of the port *)

Lemma isr_port_bits s s' tr j :
  isr s = Ret tt s' tr -> 2 <= j < 8 ->
  Z.testbit (rGPIO s') j = Z.testbit (rGPIO s) j.
Proof.
  intros Hi Hj.
  assert (H0 : (j =? 0) = false) by (apply Z.eqb_neq; lia).
  assert (H1 : (j =? 1) = false) by (apply Z.eqb_neq; lia).
  destruct (gate s) eqn:Hg.
  - rewrite (isr_closing s Hg) in Hi. injection Hi as <- _.
    cbn [set_sfr rGPIO]. rewrite toggled_bit, H0 by lia. apply xorb_false_r.
  - rewrite (isr_opening s Hg) in Hi. injection Hi as <- _.
    cbn [set_sfr rGPIO].
    rewrite mr_low_bit, mr_high_bit, toggled_bit, H0, H1 by lia.
    cbn [negb]. rewrite andb_true_r, orb_false_r. apply xorb_false_r.
Qed.

Lemma isr_other_regs s s' tr :
  isr s = Ret tt s' tr ->
  rTRISIO s' = rTRISIO s /\ rWPU s' = rWPU s /\ nGPPU s' = nGPPU s /\
  T0CS s' = T0CS s /\ PSA s' = PSA s /\ PS s' = PS s.
Proof.
  rewrite isr_run. cbv zeta.
  destruct (Z.testbit (isr_toggled s) 0); intros [= <- _]; repeat split.
Qed.

(** Every value the handler drives on the port after the flip, when the gate
    opens, has the gate bit high. *)
Lemma opening_writes_gate_high s :
  gate s = false ->
  Z.testbit (isr_toggled s) 0 = true /\
  Z.testbit (isr_mr_high s) 0 = true /\
  Z.testbit (isr_mr_low s) 0 = true.
Proof.
  intros Hg.
  assert (Ht : Z.testbit (isr_toggled s) 0 = true)
    by (rewrite toggled_gate, Hg; reflexivity).
  assert (Hh : Z.testbit (isr_mr_high s) 0 = true)
    by (rewrite mr_high_bit, Ht by lia; reflexivity).
  repeat split; try assumption.
  rewrite mr_low_bit, Hh by lia. reflexivity.
Qed.

(** X1. Whatever the state, the handler returns having changed only TMR0,
    T0IF and bits 0 and 1 of GPIO: the direction and pull-up registers, the
    option bits, both globals, both interrupt enables and bits 2 to 7 of the
    port (the LED and the button among them) are as before.  When the gate
    opens, CLK is high in every value the handler drives on the port, so the
    reset pulse lies inside the open phase. *)
Theorem isr_touches_only_counter_lines (s : state) :
  exists s' tr,
    isr s = Ret tt s' tr /\
    rTRISIO s' = rTRISIO s /\ rWPU s' = rWPU s /\ nGPPU s' = nGPPU s /\
    T0CS s' = T0CS s /\ PSA s' = PSA s /\ PS s' = PS s /\
    tmr_pr s' = tmr_pr s /\ tmr_prx1 s' = tmr_prx1 s /\
    T0IE s' = T0IE s /\ GIE s' = GIE s /\
    (forall j, 2 <= j < 8 -> Z.testbit (rGPIO s') j = Z.testbit (rGPIO s) j) /\
    (gate s = false ->
     forall v, In (PortWrite v) tr -> Z.testbit v 0 = true).
Proof.
  destruct (isr_timer s) as (s' & tr & Hi & _ & _ & Hp & Hx & He & Hg).
  destruct (isr_other_regs s s' tr Hi) as (H1 & H2 & H3 & H4 & H5 & H6).
  exists s', tr. split; [exact Hi |].
  repeat (split; [assumption |]). split.
  - intros j Hj. exact (isr_port_bits s s' tr j Hi Hj).
  - intros Hgt v Hin.
    destruct (opening_writes_gate_high s Hgt) as (Ha & Hb & Hc).
    rewrite (isr_opening s Hgt) in Hi. injection Hi as _ <-.
    destruct Hin as [[= <-] | [[= <-] | [Hn | [[= <-] | []]]]];
      try assumption. discriminate Hn.
Qed.

(** ** Two handler runs in a row *)

Lemma isr_trace s s' tr :
  isr s = Ret tt s' tr ->
  tr = if gate s
       then [PortWrite (isr_toggled s)]
       else [PortWrite (isr_toggled s); PortWrite (isr_mr_high s); Nop16;
             PortWrite (isr_mr_low s)].
Proof.
  destruct (gate s) eqn:Hg.
  - rewrite (isr_closing s Hg). intros [= _ <-]. reflexivity.
  - rewrite (isr_opening s Hg). intros [= _ <-]. reflexivity.
Qed.

Lemma pulse_bits s :
  Z.testbit (isr_mr_high s) 1 = true /\ Z.testbit (isr_mr_low s) 1 = false.
Proof.
  split.
  - rewrite mr_high_bit by lia. apply orb_true_r.
  - rewrite mr_low_bit by lia. apply andb_false_r.
Qed.

Lemma delays_app t1 t2 : delays (t1 ++ t2) = (delays t1 + delays t2)%nat.
Proof. unfold delays. rewrite filter_app. apply length_app. Qed.

Lemma delays_isr s s' tr :
  isr s = Ret tt s' tr -> delays tr = if gate s then 0%nat else 1%nat.
Proof.
  intros Hi. rewrite (isr_trace s s' tr Hi). destruct (gate s); reflexivity.
Qed.

Lemma delays_none tr : has_delay tr = false -> delays tr = 0%nat.
Proof.
  unfold has_delay, delays. induction tr as [| e tr IH]; [reflexivity |].
  cbn [existsb filter]. destruct (is_delay e); cbn [orb].
  - discriminate.
  - exact IH.
Qed.

(** X2. Two handler runs in a row: both return; the gate is back at its
    level, the reset line is low, bits 2 to 7 of the port are as before,
    TMR0 holds [tmr_pr] with the flag clear, and the two traces together hold
    exactly one reset pulse, with exactly one delay. *)
Theorem isr_twice (s : state) :
  exists s1 tr1 s2 tr2,
    isr s = Ret tt s1 tr1 /\ isr s1 = Ret tt s2 tr2 /\
    gate s1 = negb (gate s) /\ gate s2 = gate s /\
    mr s2 = false /\
    (forall j, 2 <= j < 8 -> Z.testbit (rGPIO s2) j = Z.testbit (rGPIO s) j) /\
    TMR0 s2 = tmr_pr s /\ T0IF s2 = false /\
    reset_pulses (tr1 ++ tr2) = 1%nat /\
    delays (tr1 ++ tr2) = 1%nat.
Proof.
  destruct (isr_lines s) as (s1 & tr1 & Hi1 & Hg1 & _ & Hm1 & _).
  destruct (isr_lines s1) as (s2 & tr2 & Hi2 & Hg2 & _ & Hm2 & _).
  destruct (isr_timer s) as (s1' & tr1' & Hi1' & _ & _ & Hp1 & _).
  rewrite Hi1 in Hi1'. injection Hi1' as <- <-.
  destruct (isr_timer s1) as (s2' & tr2' & Hi2' & Hf2 & Ht2 & _).
  rewrite Hi2 in Hi2'. injection Hi2' as <- <-.
  exists s1, tr1, s2, tr2.
  split; [exact Hi1 |]. split; [exact Hi2 |]. split; [exact Hg1 |].
  split; [rewrite Hg2, Hg1; apply negb_involutive |].
  split; [rewrite Hm2, Hm1, Hg1; destruct (mr s), (gate s); reflexivity |].
  split.
  { intros j Hj. rewrite (isr_port_bits s1 s2 tr2 j Hi2 Hj).
    exact (isr_port_bits s s1 tr1 j Hi1 Hj). }
  split; [rewrite Ht2; exact Hp1 |]. split; [exact Hf2 |].
  split.
  - rewrite (isr_trace s s1 tr1 Hi1), (isr_trace s1 s2 tr2 Hi2), Hg1.
    destruct (pulse_bits s) as [Hh Hl]. destruct (pulse_bits s1) as [Hh1 Hl1].
    destruct (gate s); cbn [negb app reset_pulses].
    + rewrite Hh1, Hl1. reflexivity.
    + rewrite Hh, Hl. reflexivity.
  - rewrite delays_app, (delays_isr s s1 tr1 Hi1), (delays_isr s1 s2 tr2 Hi2), Hg1.
    destruct (gate s); reflexivity.
Qed.

(** ** What freq_init sets up *)

Lemma testbit_clr2 v j :
  0 <= j < 8 ->
  Z.testbit (u8 (Z.land v (Z.lnot (Z.lor CNTR_CLK CNTR_MR)))) j
  = Z.testbit v j && negb ((j =? 0) || (j =? 1)).
Proof.
  intros Hj. unfold CNTR_CLK, CNTR_MR.
  rewrite testbit_u8, Z.land_spec, Z.lnot_spec, Z.lor_spec, !testbit_pin by lia.
  reflexivity.
Qed.

Lemma init_regs_port b s :
  Z.testbit (gate_low s) 0 = false /\
  (forall j, 1 <= j < 8 -> Z.testbit (gate_low s) j = Z.testbit (rGPIO s) j) /\
  rGPIO (init_regs b s) = pins_idle s /\
  (forall j, 2 <= j < 8 ->
     Z.testbit (rGPIO (init_regs b s)) j = Z.testbit (rGPIO s) j).
Proof.
  assert (Hgl : forall j, 0 <= j < 8 ->
            Z.testbit (gate_low s) j = Z.testbit (rGPIO s) j && negb (j =? 0)).
  { intros j Hj. unfold gate_low, CNTR_CLK. apply testbit_clr; lia. }
  split; [rewrite Hgl by lia; apply andb_false_r |]. split.
  - intros j Hj. rewrite Hgl by lia.
    replace (j =? 0) with false by (symmetry; apply Z.eqb_neq; lia).
    apply andb_true_r.
  - split; [reflexivity |]. intros j Hj. cbn [init_regs rGPIO].
    unfold pins_idle, CNTR_MR. rewrite testbit_set, Hgl by lia.
    replace (j =? 0) with false by (symmetry; apply Z.eqb_neq; lia).
    replace (j =? 1) with false by (symmetry; apply Z.eqb_neq; lia).
    rewrite orb_false_r. apply andb_true_r.
Qed.

Lemma init_regs_dirs b s :
  Z.testbit (rTRISIO (init_regs b s)) 0 = false /\
  Z.testbit (rTRISIO (init_regs b s)) 1 = false /\
  Z.testbit (rWPU (init_regs b s)) 0 = true /\
  match BTN_PORT b with
  | None =>
      (forall j, 2 <= j < 8 ->
         Z.testbit (rTRISIO (init_regs b s)) j = Z.testbit (rTRISIO s) j) /\
      (forall j, 1 <= j < 8 ->
         Z.testbit (rWPU (init_regs b s)) j = Z.testbit (rWPU s) j)
  | Some _ =>
      Z.testbit (rTRISIO (init_regs b s)) 3 = true /\
      Z.testbit (rTRISIO (init_regs b s)) 2 = false /\
      Z.testbit (rWPU (init_regs b s)) 3 = true /\
      (forall j, 4 <= j < 8 ->
         Z.testbit (rTRISIO (init_regs b s)) j = Z.testbit (rTRISIO s) j) /\
      (forall j, 1 <= j < 8 -> j <> 3 ->
         Z.testbit (rWPU (init_regs b s)) j = Z.testbit (rWPU s) j)
  end.
Proof.
  unfold init_regs. cbn [rTRISIO rWPU].
  destruct (BTN_PORT b) as [port |]; repeat split; intros;
    unfold BTN_PIN, LED_PIN;
    rewrite ?testbit_clr, ?testbit_set, ?testbit_clr2 by lia;
    unfold CNTR_CLK; rewrite ?testbit_set by lia;
    repeat match goal with
           | |- context [?j =? ?k] =>
               is_var j;
               replace (j =? k) with false by (symmetry; apply Z.eqb_neq; lia)
           end;
    cbn [Z.eqb Pos.eqb orb negb];
    rewrite ?andb_false_r, ?orb_true_r, ?andb_true_r, ?orb_false_r;
    reflexivity.
Qed.

(** X3. Pin set-up: whenever the formula is defined, [freq_init] ends (by
    returning or in the fault loop) having driven first CLK low, then MR
    high, with CLK and MR made outputs, the pull-up of the CLK pin and the
    global pull-up enable switched on, and timer 0 clocked from the
    instruction clock through the prescaler; TMR0 and GIE are not written.
    Bits 2 to 7 of the port are as before.  Without the button the other
    direction and pull-up bits are as before; with it, the button pin is an
    input with its pull-up on and the LED pin an output. *)
Theorem freq_init_pin_setup (b : build) (s : state) :
  F_MSB b / 1000 <> 0 ->
  exists s' tr,
    (freq_init b s = Ret tt s' tr \/ freq_init b s = Hang s' tr) /\
    tr = [PortWrite (gate_low s); PortWrite (pins_idle s)] /\
    Z.testbit (gate_low s) 0 = false /\
    Z.testbit (gate_low s) 1 = mr s /\
    gate s' = false /\ mr s' = true /\
    (forall j, 2 <= j < 8 -> Z.testbit (rGPIO s') j = Z.testbit (rGPIO s) j) /\
    Z.testbit (rTRISIO s') 0 = false /\ Z.testbit (rTRISIO s') 1 = false /\
    Z.testbit (rWPU s') 0 = true /\
    nGPPU s' = false /\ T0CS s' = false /\ PSA s' = false /\
    TMR0 s' = TMR0 s /\ GIE s' = GIE s /\
    match BTN_PORT b with
    | None =>
        (forall j, 2 <= j < 8 ->
           Z.testbit (rTRISIO s') j = Z.testbit (rTRISIO s) j) /\
        (forall j, 1 <= j < 8 -> Z.testbit (rWPU s') j = Z.testbit (rWPU s) j)
    | Some _ =>
        Z.testbit (rTRISIO s') 3 = true /\
        Z.testbit (rTRISIO s') 2 = false /\
        Z.testbit (rWPU s') 3 = true /\
        (forall j, 4 <= j < 8 ->
           Z.testbit (rTRISIO s') j = Z.testbit (rTRISIO s) j) /\
        (forall j, 1 <= j < 8 -> j <> 3 ->
           Z.testbit (rWPU s') j = Z.testbit (rWPU s) j)
    end.
Proof.
  intros Hd. apply Z.eqb_neq in Hd. rewrite freq_init_run, Hd.
  destruct (init_regs_port b s) as (Hg0 & Hg1 & _ & Hp).
  destruct (init_regs_dirs b s) as (Ht0 & Ht1 & Hw0 & Hrest).
  assert (Hcommon :
    forall s', rGPIO s' = rGPIO (init_regs b s) ->
               rTRISIO s' = rTRISIO (init_regs b s) ->
               rWPU s' = rWPU (init_regs b s) ->
      gate s' = false /\ mr s' = true /\
      (forall j, 2 <= j < 8 -> Z.testbit (rGPIO s') j = Z.testbit (rGPIO s) j) /\
      Z.testbit (rTRISIO s') 0 = false /\ Z.testbit (rTRISIO s') 1 = false /\
      Z.testbit (rWPU s') 0 = true /\
      match BTN_PORT b with
      | None =>
          (forall j, 2 <= j < 8 ->
             Z.testbit (rTRISIO s') j = Z.testbit (rTRISIO s) j) /\
          (forall j, 1 <= j < 8 -> Z.testbit (rWPU s') j = Z.testbit (rWPU s) j)
      | Some _ =>
          Z.testbit (rTRISIO s') 3 = true /\
          Z.testbit (rTRISIO s') 2 = false /\
          Z.testbit (rWPU s') 3 = true /\
          (forall j, 4 <= j < 8 ->
             Z.testbit (rTRISIO s') j = Z.testbit (rTRISIO s) j) /\
          (forall j, 1 <= j < 8 -> j <> 3 ->
             Z.testbit (rWPU s') j = Z.testbit (rWPU s) j)
      end).
  { intros s' E1 E2 E3. unfold gate, mr. rewrite E1, E2, E3.
    cbn [init_regs rGPIO].
    rewrite pins_idle_gate, pins_idle_mr.
    repeat (split; [first [reflexivity | assumption] |]). exact Hrest. }
  destruct (ps_code (PS_TMR b)) as [code |].
  - destruct (Hcommon (armed b code s) eq_refl eq_refl eq_refl)
      as (A1 & A2 & A3 & A4 & A5 & A6 & A7).
    exists (armed b code s), [PortWrite (gate_low s); PortWrite (pins_idle s)].
    split; [left; reflexivity |]. split; [reflexivity |].
    split; [exact Hg0 |]. split; [apply Hg1; lia |].
    repeat (split; [first [assumption | reflexivity] |]). exact A7.
  - destruct (Hcommon (init_regs b s) eq_refl eq_refl eq_refl)
      as (A1 & A2 & A3 & A4 & A5 & A6 & A7).
    exists (init_regs b s), [PortWrite (gate_low s); PortWrite (pins_idle s)].
    split; [right; reflexivity |]. split; [reflexivity |].
    split; [exact Hg0 |]. split; [apply Hg1; lia |].
    repeat (split; [first [assumption | reflexivity] |]). exact A7.
Qed.

Lemma freq_init_pin_setup_witness :
  exists s' tr,
    (freq_init (shipped false) power_on = Ret tt s' tr \/
     freq_init (shipped false) power_on = Hang s' tr) /\
    tr = [PortWrite (gate_low power_on); PortWrite (pins_idle power_on)] /\
    gate s' = false /\ mr s' = true /\
    Z.testbit (rTRISIO s') 0 = false /\ Z.testbit (rTRISIO s') 1 = false.
Proof.
  destruct (freq_init_pin_setup (shipped false) power_on)
    as (s' & tr & H1 & H2 & _ & _ & H3 & H4 & _ & H5 & H6 & _).
  - vm_compute. discriminate.
  - exists s', tr. auto 10.
Defined.

Lemma ps_code_pow ps code :
  ps_code ps = Some code -> 0 <= code <= 7 /\ 2 ^ (code + 1) = ps.
Proof.
  unfold ps_code.
  repeat match goal with
         | |- context [ps =? ?k] => destruct (Z.eqb_spec ps k) as [-> | ?]
         end; intros [= <-]; split; first [lia | reflexivity].
Qed.

(** X4. Prescaler selector: with a supported prescaler (and the formula
    defined) [freq_init] returns with a selector in 0..7 in OPTION_REG.PS
    such that the prescaler is 2 to the power selector + 1, which is the
    division rate timer 0 applies for that selector. *)
Theorem prescaler_selector (b : build) (s : state) :
  F_MSB b / 1000 <> 0 ->
  Spec.supported (PS_TMR b) = true ->
  exists s' tr,
    freq_init b s = Ret tt s' tr /\
    0 <= PS s' <= 7 /\ 2 ^ (PS s' + 1) = PS_TMR b.
Proof.
  intros Hd Hs. apply Z.eqb_neq in Hd.
  rewrite freq_init_run, Hd. rewrite ps_code_supported in Hs.
  destruct (ps_code (PS_TMR b)) as [code |] eqn:Hc; [| discriminate Hs].
  do 2 eexists. split; [reflexivity |]. cbn [armed set_T0IE set_T0IF
    set_tmr_pr set_tmr_prx1 set_PS PS]. exact (ps_code_pow _ _ Hc).
Qed.

Lemma prescaler_selector_witness :
  exists s' tr,
    freq_init (shipped false) power_on = Ret tt s' tr /\
    0 <= PS s' <= 7 /\ 2 ^ (PS s' + 1) = 64.
Proof.
  apply (prescaler_selector (shipped false) power_on).
  - vm_compute. discriminate.
  - reflexivity.
Defined.

(** ** The cycle count and the 16-bit variable that holds it *)

Lemma code_cyc_wrapped b :
  0 <= F_CLK b < 2 ^ 32 ->
  code_cyc b = Spec.cycles (F_CLK b) (F_MSB b) mod 2 ^ 16.
Proof.
  intros Hr. unfold code_cyc, Spec.cycles, u16, u32.
  change (Z.shiftl 1000 11) with (1000 * 2048).
  set (q := F_CLK b / 1000000 / 4).
  assert (Hq : 0 <= q <= 1073).
  { subst q. split.
    - apply Z.div_pos; [apply Z.div_pos |]; lia.
    - apply Z.lt_succ_r. apply Z.div_lt_upper_bound; [lia |].
      apply Z.div_lt_upper_bound; lia. }
  rewrite (Z.mod_small (q * (1000 * 2048))) by lia. reflexivity.
Qed.

(** X5. The cycle count: for any 32-bit clock frequency the 32-bit product
    in the initialiser of [cyc] does not overflow; the only loss is the store
    into the 16-bit [cyc].  So with a supported prescaler [freq_init] returns
    with [tmr_prx1 = -((cycles mod 65536) / prescaler)] modulo 256, cycles
    being the formula of the header comment, and with [tmr_pr] equal to it,
    the flag clear and the timer interrupt enabled. *)
Theorem reload_from_wrapped_cycles (b : build) (s : state) :
  0 <= F_CLK b < 2 ^ 32 ->
  F_MSB b / 1000 <> 0 ->
  Spec.supported (PS_TMR b) = true ->
  exists s' tr,
    freq_init b s = Ret tt s' tr /\
    tmr_prx1 s' =
      (- (Spec.cycles (F_CLK b) (F_MSB b) mod 2 ^ 16 / PS_TMR b)) mod 256 /\
    tmr_pr s' = tmr_prx1 s' /\ T0IF s' = false /\ T0IE s' = true.
Proof.
  intros Hr Hd Hs. apply Z.eqb_neq in Hd.
  rewrite freq_init_run, Hd. rewrite ps_code_supported in Hs.
  destruct (ps_code (PS_TMR b)) as [code |]; [| discriminate Hs].
  do 2 eexists. split; [reflexivity |].
  cbn [armed set_T0IE set_T0IF set_tmr_pr set_tmr_prx1 tmr_prx1 tmr_pr T0IF T0IE].
  rewrite neg_period_mod, (code_cyc_wrapped b Hr). repeat split.
Qed.

Lemma reload_from_wrapped_cycles_witness :
  exists s' tr,
    freq_init (mkBuild 20000000 100000 256 None false) power_on = Ret tt s' tr /\
    tmr_prx1 s' = (- (Spec.cycles 20000000 100000 mod 2 ^ 16 / 256)) mod 256 /\
    tmr_pr s' = tmr_prx1 s' /\ T0IF s' = false /\ T0IE s' = true.
Proof.
  apply (reload_from_wrapped_cycles
           (mkBuild 20000000 100000 256 None false) power_on).
  - cbn. lia.
  - vm_compute. discriminate.
  - reflexivity.
Defined.

(** ** Which counts the 8-bit timer can hold *)

Lemma expiry_of_preload t :
  T0IF t = false -> 0 <= TMR0 t < 256 ->
  forall m, expires_at t m <-> m = Z.to_nat (256 - TMR0 t).
Proof.
  intros Hf Hp m.
  assert (He : expires_at t (Z.to_nat (256 - TMR0 t)))
    by (apply expires_at_preload; [exact Hf | lia | lia]).
  split.
  - intros Hm. exact (expires_at_unique t _ _ Hm He).
  - intros ->. exact He.
Qed.

(** X6. The nominal count the timer can hold: with a supported prescaler,
    [n] being [cyc / prescaler], the handler run after [freq_init] leaves the
    timer expiring after exactly [n] increments if and only if
    1 <= n <= 256. *)
Theorem nominal_count_fits_iff (b : build) (s : state) :
  F_MSB b / 1000 <> 0 ->
  Spec.supported (PS_TMR b) = true ->
  let n := code_cyc b / PS_TMR b in
  exists s1 tr1 t tr,
    freq_init b s = Ret tt s1 tr1 /\
    isr s1 = Ret tt t tr /\
    (expires_at t (Z.to_nat n) <-> 1 <= n <= 256).
Proof.
  intros Hd Hs n. apply Z.eqb_neq in Hd.
  pose proof (supported_range _ Hs) as Hps.
  rewrite freq_init_run, Hd. rewrite ps_code_supported in Hs.
  destruct (ps_code (PS_TMR b)) as [code |]; [| discriminate Hs].
  destruct (isr_timer (armed b code s)) as (t & tr & Hi & Hf & Ht & _).
  exists (armed b code s), [PortWrite (gate_low s); PortWrite (pins_idle s)], t, tr.
  split; [reflexivity |]. split; [exact Hi |].
  assert (Hp : TMR0 t = (- n) mod 256).
  { rewrite Ht. unfold armed; cbn. apply neg_period_mod. }
  assert (Hn0 : 0 <= n).
  { subst n. apply Z.div_pos; [| lia]. unfold code_cyc, u16.
    apply Z.mod_pos_bound. lia. }
  assert (Hr : 0 <= TMR0 t < 256) by (rewrite Hp; apply Z.mod_pos_bound; lia).
  rewrite (expiry_of_preload t Hf Hr). rewrite Hp. split.
  - intros Heq. apply (f_equal Z.of_nat) in Heq.
    rewrite !Z2Nat.id in Heq by lia.
    assert (0 <= (- n) mod 256 < 256) by (apply Z.mod_pos_bound; lia). lia.
  - intros Hn. f_equal. destruct (Z.eq_dec n 256) as [-> | Hne].
    + reflexivity.
    + rewrite (neg_mod_256 n) by lia. lia.
Qed.

Lemma nominal_count_fits_iff_witness :
  exists s1 tr1 t tr,
    freq_init (shipped false) power_on = Ret tt s1 tr1 /\
    isr s1 = Ret tt t tr /\
    (expires_at t 15 <-> 1 <= 15 <= 256).
Proof.
  apply (nominal_count_fits_iff (shipped false) power_on).
  - vm_compute. discriminate.
  - reflexivity.
Defined.

(** X7. The bound 25 of the header comment is what the tenfold range needs:
    in a build with the button on GPIO, with a nominal constant of magnitude
    [n] between 1 and 255 and the button pin low, a loop turn followed by a
    handler run leaves the timer expiring after exactly [10 * n] increments
    if and only if [n <= 25]. *)
Theorem tenfold_fits_iff (b : build) (t : state) (n : Z) :
  BTN_PORT b = Some GPIO ->
  1 <= n <= 255 ->
  tmr_prx1 t = 256 - n ->
  Z.testbit (rGPIO t) 3 = false ->
  exists t1 tr1 t2 tr2,
    loop_body b t = Ret tt t1 tr1 /\
    isr t1 = Ret tt t2 tr2 /\
    (expires_at t2 (Z.to_nat (10 * n)) <-> n <= 25).
Proof.
  intros Hb Hn Hx Hbtn. rewrite loop_body_run, Hb. cbn [get_sfr].
  rewrite Hbtn. cbv zeta.
  match goal with
  | |- exists t1 tr1 t2 tr2, Ret tt ?a ?c = _ /\ _ =>
      destruct (isr_timer a) as (t2 & tr2 & Hi & Hf & Ht & _);
      exists a, c, t2, tr2
  end.
  split; [reflexivity |]. split; [exact Hi |].
  assert (Hp : TMR0 t2 = (- (10 * n)) mod 256).
  { rewrite Ht. cbn [set_sfr set_tmr_pr tmr_pr].
    rewrite times_ten_char, Hx. unfold u8. change (2 ^ 8) with 256.
    replace (10 * (256 - n)) with (- (10 * n) + 10 * 256) by lia.
    apply Z.mod_add. lia. }
  assert (Hr : 0 <= TMR0 t2 < 256) by (rewrite Hp; apply Z.mod_pos_bound; lia).
  rewrite (expiry_of_preload t2 Hf Hr). rewrite Hp. split.
  - intros Heq. apply (f_equal Z.of_nat) in Heq.
    rewrite !Z2Nat.id in Heq by lia.
    assert (0 <= (- (10 * n)) mod 256 < 256) by (apply Z.mod_pos_bound; lia).
    lia.
  - intros Hle. f_equal. rewrite (neg_mod_256 (10 * n)) by lia. lia.
Qed.

Lemma tenfold_fits_iff_witness :
  exists t1 tr1 t2 tr2,
    loop_body (mkBuild 12000000 6400000 64 (Some GPIO) true)
      (mkState 2 8 9 false false false 5 false true true 0 241 241)
    = Ret tt t1 tr1 /\
    isr t1 = Ret tt t2 tr2 /\
    (expires_at t2 (Z.to_nat (10 * 15)) <-> 15 <= 25).
Proof.
  apply (tenfold_fits_iff
           (mkBuild 12000000 6400000 64 (Some GPIO) true)
           (mkState 2 8 9 false false false 5 false true true 0 241 241) 15).
  - reflexivity.
  - lia.
  - reflexivity.
  - reflexivity.
Defined.

(** ** Invariants of the running system *)

Lemma run_frame b xs y y' tr :
  run b y xs = (y', tr) ->
  sys_mode y' = sys_mode y /\
  T0IE (sys_state y') = T0IE (sys_state y) /\
  GIE (sys_state y') = GIE (sys_state y) /\
  tmr_prx1 (sys_state y') = tmr_prx1 (sys_state y).
Proof.
  revert y y' tr. induction xs as [| x xs IH]; intros y y' tr; cbn [run].
  - intros [= <- <-]. auto.
  - destruct (step b y x) as [y1 t1] eqn:Hs.
    destruct (run b y1 xs) as [y2 t2] eqn:Hr. intros [= <- <-].
    destruct (step_frame _ _ _ _ _ Hs) as (A1 & A2 & A3 & A4).
    destruct (IH _ _ _ Hr) as (B1 & B2 & B3 & B4).
    rewrite B1, B2, B3, B4. auto.
Qed.

Lemma step_reload_ok b y x y' tr :
  reload_ok (sys_state y) -> step b y x = (y', tr) ->
  reload_ok (sys_state y').
Proof.
  destruct y as [md s]. cbn [sys_state]. intros Hok.
  destruct x as [| | level]; cbn [step sys_mode sys_state].
  - destruct (tmr0_tick_frame s) as (_ & _ & _ & Hp & Hx).
    destruct (dispatch_cases (tmr0_tick s)) as [Hd | (s' & t & Hi & Hd)];
      rewrite Hd; intros [= <- <-]; cbn [sys_state]; unfold reload_ok in *.
    + rewrite Hp, Hx. exact Hok.
    + destruct (isr_timer (tmr0_tick s)) as (s2 & t2 & Hi2 & _ & _ & H1 & H2 & _).
      rewrite Hi in Hi2. injection Hi2 as <- <-.
      rewrite H1, H2, Hp, Hx. exact Hok.
  - destruct md; [| intros [= <- <-]; exact Hok].
    unfold exec. rewrite loop_body_run.
    destruct (BTN_PORT b) as [port |]; [| intros [= <- <-]; exact Hok].
    destruct Hok as (Hx & _ & _). cbv zeta.
    destruct (Z.testbit (get_sfr port s) 3); intros Heq;
      apply pair_equal_spec in Heq; destruct Heq as [<- _];
      cbn [sys_state]; unfold reload_ok; destruct port;
      cbn [set_sfr set_tmr_pr tmr_pr tmr_prx1].
    1-3: (split; [exact Hx |]; split; [exact Hx |]; left; reflexivity).
    all: rewrite times_ten_char; split; [exact Hx |];
      split; [unfold u8; apply Z.mod_pos_bound; lia | right; reflexivity].
  - intros [= <- <-]. exact Hok.
Qed.

Lemma run_reload_ok b xs y y' tr :
  reload_ok (sys_state y) -> run b y xs = (y', tr) ->
  reload_ok (sys_state y').
Proof.
  revert y y' tr. induction xs as [| x xs IH]; intros y y' tr Hok; cbn [run].
  - intros [= <- <-]. exact Hok.
  - destruct (step b y x) as [y1 t1] eqn:Hs.
    destruct (run b y1 xs) as [y2 t2] eqn:Hr. intros [= <- <-].
    exact (IH _ _ _ (step_reload_ok _ _ _ _ _ Hok Hs) Hr).
Qed.

(** X8. The shared reload byte: with a supported prescaler (and the formula
    defined), in any build, [main] reaches its loop, and after any sequence
    of timer increments, handler runs, loop turns and button changes
    [tmr_prx1] still has the value [freq_init] gave it, both globals are
    bytes, and [tmr_pr] is either [tmr_prx1] or [10 * tmr_prx1] modulo 256;
    both interrupt enables stay set. *)
Theorem reload_byte_invariant (b : build) (s : state) :
  F_MSB b / 1000 <> 0 ->
  Spec.supported (PS_TMR b) = true ->
  exists y tr0,
    boot b s = Some (y, tr0) /\ sys_mode y = Looping /\
    tmr_prx1 (sys_state y) = neg_period (code_cyc b) (PS_TMR b) /\
    forall xs, exists y' tr,
      run b y xs = (y', tr) /\
      sys_mode y' = Looping /\
      tmr_prx1 (sys_state y') = tmr_prx1 (sys_state y) /\
      reload_ok (sys_state y') /\
      T0IE (sys_state y') = true /\ GIE (sys_state y') = true.
Proof.
  intros Hd Hs. apply Z.eqb_neq in Hd. unfold boot.
  rewrite freq_init_run, Hd. rewrite ps_code_supported in Hs.
  destruct (ps_code (PS_TMR b)) as [code |]; [| discriminate Hs].
  do 2 eexists. split; [reflexivity |]. split; [reflexivity |].
  split; [reflexivity |]. intros xs.
  match goal with
  | |- exists y' tr, run b ?y xs = _ /\ _ =>
      destruct (run b y xs) as [y' tr] eqn:Hr;
      destruct (run_frame b xs y y' tr Hr) as (Hm & He & Hg & Hx);
      assert (Hok : reload_ok (sys_state y))
  end.
  { unfold reload_ok; cbn.
    assert (0 <= neg_period (code_cyc b) (PS_TMR b) < 256).
    { rewrite neg_period_mod. apply Z.mod_pos_bound. lia. }
    auto. }
  exists y', tr. split; [reflexivity |].
  split; [exact Hm |]. split; [exact Hx |].
  split; [exact (run_reload_ok b xs _ y' tr Hok Hr) |].
  split; [exact He | exact Hg].
Qed.

Lemma reload_byte_invariant_witness :
  exists y tr0,
    boot (mkBuild 12000000 6400000 64 (Some GPIO) true) power_on = Some (y, tr0) /\
    sys_mode y = Looping /\
    tmr_prx1 (sys_state y) = 241.
Proof.
  destruct (reload_byte_invariant
              (mkBuild 12000000 6400000 64 (Some GPIO) true) power_on)
    as (y & tr0 & H1 & H2 & H3 & _).
  - vm_compute. discriminate.
  - reflexivity.
  - exists y, tr0. auto.
Defined.

(** ** The gate waveform *)

Lemma step_quiet_trace b y x y' tr :
  T0IF (sys_state y) = false ->
  0 <= TMR0 (sys_state y) ->
  TMR0 (sys_state y) + Z.of_nat (ticks_in [x]) < 256 ->
  step b y x = (y', tr) ->
  has_delay tr = false.
Proof.
  destruct y as [md s]. cbn [sys_state]. intros Hf H0 Hlt.
  destruct x as [| | level]; cbn [step sys_mode sys_state ticks_in] in *.
  - change (Z.of_nat 1) with 1 in *.
    assert (Ht : tmr0_tick s = set_TMR0 (TMR0 s + 1) s).
    { unfold tmr0_tick. rewrite u8_small by lia.
      destruct (Z.eqb_spec (TMR0 s + 1) 0); [lia | reflexivity]. }
    rewrite Ht, dispatch_idle.
    + intros [= _ <-]. reflexivity.
    + cbn [set_TMR0 T0IF]. rewrite Hf. apply andb_false_r.
  - destruct md.
    + destruct (loop_body_frame b s) as (s' & t & Hl & _ & _ & _ & _ & _ & _ & _ & Hd).
      unfold exec. rewrite Hl. intros [= _ <-]. exact Hd.
    + intros [= _ <-]. reflexivity.
  - intros [= _ <-]. reflexivity.
Qed.

Lemma run_quiet_trace b xs y y' tr :
  T0IF (sys_state y) = false ->
  0 <= TMR0 (sys_state y) ->
  TMR0 (sys_state y) + Z.of_nat (ticks_in xs) < 256 ->
  run b y xs = (y', tr) ->
  has_delay tr = false.
Proof.
  revert y y' tr. induction xs as [| x xs IH]; intros y y' tr Hf H0 Hlt.
  - cbn [run]. intros [= _ <-]. reflexivity.
  - cbn [run]. rewrite ticks_in_cons in Hlt.
    destruct (step b y x) as [y1 t1] eqn:Hs.
    destruct (run b y1 xs) as [y2 t2] eqn:Hr. intros [= _ <-].
    destruct (step_quiet b y x y1 t1 Hf H0 ltac:(lia) Hs) as (Hf1 & Ht1 & _).
    rewrite has_delay_app.
    rewrite (step_quiet_trace b y x y1 t1 Hf H0 ltac:(lia) Hs).
    exact (IH y1 y2 t2 Hf1 ltac:(lia) ltac:(lia) Hr).
Qed.

(** The increment from 255 with the interrupt enabled, with its trace. *)
Lemma step_expiry_lines b y :
  T0IF (sys_state y) = false -> TMR0 (sys_state y) = 255 ->
  GIE (sys_state y) = true -> T0IE (sys_state y) = true ->
  exists y' tr,
    step b y Tick = (y', tr) /\
    gate (sys_state y') = negb (gate (sys_state y)) /\
    mr (sys_state y') = mr (sys_state y) && gate (sys_state y) /\
    TMR0 (sys_state y') = tmr_pr (sys_state y) /\
    T0IF (sys_state y') = false /\
    delays tr = (if gate (sys_state y) then 0%nat else 1%nat).
Proof.
  destruct y as [md s]. cbn [sys_state step]. intros Hf Ht Hg He.
  assert (Hk : tmr0_tick s = set_T0IF true (set_TMR0 0 s)).
  { unfold tmr0_tick. rewrite Ht. reflexivity. }
  rewrite Hk.
  set (s1 := set_T0IF true (set_TMR0 0 s)).
  destruct (dispatch_fires s1) as (s' & tr & Hi & Hd).
  { subst s1. cbn. rewrite Hg, He. reflexivity. }
  rewrite Hd. exists (mkSys md s'), tr. split; [reflexivity |].
  destruct (isr_lines s1) as (s2 & t2 & Hi2 & Hgate & _ & Hmr & _).
  rewrite Hi in Hi2. injection Hi2 as <- <-.
  destruct (isr_timer s1) as (s3 & t3 & Hi3 & Hf3 & Ht3 & _).
  rewrite Hi in Hi3. injection Hi3 as <- <-.
  cbn [sys_state]. rewrite Hgate, Hmr, Hf3, Ht3, (delays_isr s1 s' tr Hi).
  repeat split.
Qed.

Lemma xorb_negb_odd g m :
  xorb (negb g) (Z.odd m) = xorb g (Z.odd (1 + m)).
Proof.
  replace (1 + m) with (Z.succ m) by lia.
  rewrite Z.odd_succ, <- Z.negb_odd.
  destruct g, (Z.odd m); reflexivity.
Qed.

(** The waveform from any point of a phase: [r] increments of the phase are
    already over. *)
Lemma waveform_from b xs :
  BTN_PORT b = None ->
  forall y y' tr r,
    GIE (sys_state y) = true -> T0IE (sys_state y) = true ->
    T0IF (sys_state y) = false ->
    0 <= tmr_pr (sys_state y) < 256 ->
    0 <= r < 256 - tmr_pr (sys_state y) ->
    TMR0 (sys_state y) = tmr_pr (sys_state y) + r ->
    run b y xs = (y', tr) ->
    let P := 256 - tmr_pr (sys_state y) in
    let k := r + Z.of_nat (ticks_in xs) in
    gate (sys_state y') = xorb (gate (sys_state y)) (Z.odd (k / P)) /\
    TMR0 (sys_state y') = tmr_pr (sys_state y) + k mod P /\
    T0IF (sys_state y') = false /\
    tmr_pr (sys_state y') = tmr_pr (sys_state y) /\
    Z.of_nat (delays tr)
    = (k / P + (if gate (sys_state y) then 0 else 1)) / 2.
Proof.
  intros Hb. induction xs as [| x xs IH];
    intros y y' tr r HG HE Hf Hp Hr Ht Hrun P k.
  - cbn [run] in Hrun. injection Hrun as <- <-. subst k.
    cbn [ticks_in]. change (Z.of_nat 0) with 0. rewrite Z.add_0_r.
    rewrite Z.div_small, Z.mod_small by (subst P; lia). cbn [Z.odd].
    rewrite xorb_false_r. repeat split; try assumption.
    destruct (gate (sys_state y)); reflexivity.
  - cbn [run] in Hrun.
    destruct (step b y x) as [y1 t1] eqn:Hs.
    destruct (run b y1 xs) as [y2 t2] eqn:Hr2.
    injection Hrun as <- <-.
    destruct (step_frame _ _ _ _ _ Hs) as (_ & HE1 & HG1 & _).
    pose proof (step_nominal _ _ _ _ _ Hb Hs) as Hp1.
    rewrite HE in HE1. rewrite HG in HG1.
    assert (Hcase : Z.of_nat (ticks_in [x]) = 0 \/
                    (x = Tick /\ r + 1 < P) \/ (x = Tick /\ r + 1 = P)).
    { destruct x; cbn [ticks_in]; [| left; reflexivity ..]. right.
      assert (H : r + 1 < P \/ r + 1 = P) by (subst P; lia).
      destruct H as [H | H]; [left | right]; split; auto. }
    subst k. rewrite ticks_in_cons. rewrite delays_app, Nat2Z.inj_add.
    destruct Hcase as [H0 | [[-> Hlt] | [-> Heq]]].
    + (* no increment *)
      destruct (step_quiet b y x y1 t1 Hf ltac:(lia) ltac:(lia) Hs)
        as (Hf1 & Ht1 & Hg1).
      pose proof (step_quiet_trace b y x y1 t1 Hf ltac:(lia) ltac:(lia) Hs) as Hd1.
      rewrite (delays_none _ Hd1).
      destruct (IH y1 y2 t2 r HG1 HE1 Hf1 ltac:(lia) ltac:(lia) ltac:(lia) Hr2)
        as (A & B & C & D & E).
      rewrite Hp1 in A, B, D, E. rewrite Hg1 in A, E. fold P in A, B, E.
      rewrite H0, Z.add_0_l. change (Z.of_nat 0) with 0. rewrite Z.add_0_l.
      repeat split; assumption.
    + (* an increment inside the phase *)
      cbn [ticks_in] in *. change (Z.of_nat 1) with 1 in *.
      destruct (step_quiet b y Tick y1 t1 Hf ltac:(lia) ltac:(subst P; cbn [ticks_in]; lia) Hs)
        as (Hf1 & Ht1 & Hg1).
      pose proof (step_quiet_trace b y Tick y1 t1 Hf ltac:(lia)
                    ltac:(subst P; cbn [ticks_in]; lia) Hs) as Hd1.
      rewrite (delays_none _ Hd1). cbn [ticks_in] in Ht1.
      change (Z.of_nat 1) with 1 in Ht1.
      destruct (IH y1 y2 t2 (r + 1) HG1 HE1 Hf1 ltac:(lia)
                  ltac:(subst P; lia) ltac:(lia) Hr2) as (A & B & C & D & E).
      rewrite Hp1 in A, B, D, E. rewrite Hg1 in A, E. fold P in A, B, E.
      change (Z.of_nat 0) with 0. rewrite Z.add_0_l.
      replace (r + (1 + Z.of_nat (ticks_in xs)))
        with (r + 1 + Z.of_nat (ticks_in xs)) by lia.
      repeat split; assumption.
    + (* the increment that ends the phase *)
      destruct (step_expiry_lines b y Hf ltac:(subst P; lia) HG HE)
        as (y1' & t1' & Hs' & Hg1 & _ & Ht1 & Hf1 & Hd1).
      rewrite Hs in Hs'. injection Hs' as <- <-.
      destruct (IH y1 y2 t2 0 HG1 HE1 Hf1 ltac:(lia) ltac:(lia) ltac:(lia) Hr2)
        as (A & B & C & D & E).
      rewrite Hp1 in A, B, D, E. rewrite Hg1 in A, E. fold P in A, B, E.
      rewrite Z.add_0_l in A, B, E.
      cbn [ticks_in]. change (Z.of_nat 1) with 1.
      set (k' := Z.of_nat (ticks_in xs)) in *.
      replace (r + (1 + k')) with (1 * P + k') by lia.
      assert (HP : P <> 0) by (subst P; lia).
      rewrite Z.div_add_l by exact HP.
      rewrite (Z.add_comm (1 * P) k'), Z.mod_add by exact HP.
      split; [rewrite A; apply xorb_negb_odd |].
      split; [exact B |]. split; [exact C |]. split; [exact D |].
      rewrite E, Hd1.
      assert (Hm : 0 <= k' / P).
      { apply Z.div_pos; subst k' P; lia. }
      destruct (gate (sys_state y)); cbn [negb].
      * change (Z.of_nat 0) with 0. rewrite Z.add_0_l. f_equal. lia.
      * change (Z.of_nat 1) with 1. rewrite Z.add_0_r.
        replace (1 + k' / P + 1) with (k' / P + 1 * 2) by lia.
        rewrite Z.div_add by lia. lia.
Qed.

(** X9. The gate waveform without the button: from a state right after a
    reload ([TMR0 = tmr_pr], flag clear, interrupts enabled), with
    [P = 256 - tmr_pr], after any stimuli holding [k] timer increments the
    gate has flipped [k / P] times, TMR0 is [k mod P] past the reload value,
    [tmr_pr] is unchanged, and the number of reset pulses emitted is the
    number of those flips that opened the gate. *)
Theorem gate_waveform (b : build) (y y' : system) (xs : list stimulus)
    (tr : list event) :
  BTN_PORT b = None ->
  GIE (sys_state y) = true -> T0IE (sys_state y) = true ->
  T0IF (sys_state y) = false ->
  0 <= tmr_pr (sys_state y) < 256 ->
  TMR0 (sys_state y) = tmr_pr (sys_state y) ->
  run b y xs = (y', tr) ->
  let P := 256 - tmr_pr (sys_state y) in
  let k := Z.of_nat (ticks_in xs) in
  gate (sys_state y') = xorb (gate (sys_state y)) (Z.odd (k / P)) /\
  TMR0 (sys_state y') = tmr_pr (sys_state y) + k mod P /\
  T0IF (sys_state y') = false /\
  tmr_pr (sys_state y') = tmr_pr (sys_state y) /\
  Z.of_nat (delays tr) = (k / P + (if gate (sys_state y) then 0 else 1)) / 2.
Proof.
  intros Hb HG HE Hf Hp Ht Hrun.
  exact (waveform_from b xs Hb y y' tr 0 HG HE Hf Hp ltac:(lia) ltac:(lia) Hrun).
Qed.

Lemma gate_waveform_witness :
  gate (sys_state (fst (run (shipped false)
         (mkSys Looping
            (mkState 2 0 1 false false false 5 false true true 241 241 241))
         (repeat Tick 40))))
  = xorb false (Z.odd (Z.of_nat (ticks_in (repeat Tick 40)) / (256 - 241))).
Proof.
  apply (gate_waveform (shipped false)
           (mkSys Looping
              (mkState 2 0 1 false false false 5 false true true 241 241 241))
           (fst (run (shipped false)
              (mkSys Looping
                 (mkState 2 0 1 false false false 5 false true true 241 241 241))
              (repeat Tick 40)))
           (repeat Tick 40)
           (snd (run (shipped false)
              (mkSys Looping
                 (mkState 2 0 1 false false false 5 false true true 241 241 241))
              (repeat Tick 40)))).
  - reflexivity.
  - reflexivity.
  - reflexivity.
  - reflexivity.
  - cbn [sys_state tmr_pr]. lia.
  - reflexivity.
  - apply surjective_pairing.
Defined.

(** X10. The first phase after start-up: [freq_init] does not write TMR0
    (the line that would is commented out), so with a supported prescaler
    and TMR0 holding the byte [t0] on entry, the gate stays closed with the
    reset line high and no pulse for the first [256 - t0 - 1] increments,
    whatever the reload constant and whatever the loop and the button do;
    the next increment runs the handler, which opens the gate, pulses MR
    once, leaves it low and loads TMR0 from [tmr_pr]. *)
Theorem first_expiry_after_boot (b : build) (s : state) :
  F_MSB b / 1000 <> 0 ->
  Spec.supported (PS_TMR b) = true ->
  0 <= TMR0 s < 256 ->
  exists y tr0,
    boot b s = Some (y, tr0) /\
    forall xs y1 tr1,
      run b y xs = (y1, tr1) ->
      Z.of_nat (ticks_in xs) < 256 - TMR0 s ->
      gate (sys_state y1) = false /\ mr (sys_state y1) = true /\
      delays tr1 = 0%nat /\
      TMR0 (sys_state y1) = TMR0 s + Z.of_nat (ticks_in xs) /\
      (Z.of_nat (ticks_in xs) = 256 - TMR0 s - 1 ->
       exists y2 tr2,
         step b y1 Tick = (y2, tr2) /\
         gate (sys_state y2) = true /\ mr (sys_state y2) = false /\
         delays tr2 = 1%nat /\
         TMR0 (sys_state y2) = tmr_pr (sys_state y1)).
Proof.
  intros Hd Hs Ht. apply Z.eqb_neq in Hd.
  destruct (boot b s) as [[y tr0] |] eqn:Hb.
  2: { unfold boot in Hb. rewrite freq_init_run, Hd in Hb.
       destruct (ps_code (PS_TMR b)); discriminate Hb. }
  destruct (boot_lines b s y tr0 Hb) as [Hg Hm].
  assert (Hst : T0IF (sys_state y) = false /\ TMR0 (sys_state y) = TMR0 s /\
                GIE (sys_state y) = true /\ T0IE (sys_state y) = true).
  { unfold boot in Hb. rewrite freq_init_run, Hd in Hb.
    rewrite ps_code_supported in Hs.
    destruct (ps_code (PS_TMR b)); [| discriminate Hs].
    injection Hb as <- _. repeat split. }
  destruct Hst as (Hf & Ht0 & HG & HE).
  exists y, tr0. split; [reflexivity |].
  intros xs y1 tr1 Hr Hk.
  destruct (run_quiet b xs y y1 tr1 Hf ltac:(lia) ltac:(lia) Hr) as (Hf1 & Ht1 & Hg1).
  pose proof (run_quiet_trace b xs y y1 tr1 Hf ltac:(lia) ltac:(lia) Hr) as Hd1.
  pose proof (run_mr b xs y y1 tr1 Hr) as Hm1.
  destruct (run_frame b xs y y1 tr1 Hr) as (_ & HE1 & HG1 & _).
  rewrite Hd1, Hm in Hm1. rewrite Hg in Hg1. rewrite Ht0 in Ht1.
  split; [exact Hg1 |]. split; [exact Hm1 |].
  split; [exact (delays_none _ Hd1) |]. split; [exact Ht1 |].
  intros Hlast.
  destruct (step_expiry_lines b y1 Hf1 ltac:(lia) ltac:(congruence) ltac:(congruence))
    as (y2 & tr2 & Hs2 & A & B & C & _ & D).
  exists y2, tr2. rewrite Hg1 in A, B, D. rewrite Hm1 in B.
  repeat split; assumption.
Qed.

Lemma first_expiry_after_boot_witness :
  exists y tr0, boot (shipped false) power_on = Some (y, tr0).
Proof.
  destruct (first_expiry_after_boot (shipped false) power_on)
    as (y & tr0 & H & _).
  - vm_compute. discriminate.
  - reflexivity.
  - cbn. lia.
  - exists y, tr0. exact H.
Defined.

(** ** Openings and closings alternate, in every build *)

Lemma step_fires b y x y' tr :
  step b y x = (y', tr) ->
  if fires y x
  then gate (sys_state y') = negb (gate (sys_state y)) /\
       delays tr = (if gate (sys_state y) then 0%nat else 1%nat)
  else gate (sys_state y') = gate (sys_state y) /\ delays tr = 0%nat.
Proof.
  destruct y as [md s]. destruct x as [| | level];
    cbn [step fires sys_mode sys_state].
  - assert (Hg : gate (tmr0_tick s) = gate s).
    { unfold gate. destruct (tmr0_tick_frame s) as (-> & _). reflexivity. }
    destruct (GIE (tmr0_tick s) && T0IE (tmr0_tick s) && T0IF (tmr0_tick s)) eqn:Hc.
    + destruct (dispatch_fires _ Hc) as (s' & t & Hi & Hd). rewrite Hd.
      intros [= <- <-]. cbn [sys_state].
      destruct (isr_lines (tmr0_tick s)) as (s2 & t2 & Hi2 & Hgate & _).
      rewrite Hi in Hi2. injection Hi2 as <- <-.
      rewrite Hgate, (delays_isr _ _ _ Hi), Hg. auto.
    + rewrite (dispatch_idle _ Hc). intros [= <- <-]. cbn [sys_state]. auto.
  - destruct md.
    + destruct (loop_body_frame b s) as (s' & t & Hl & _ & _ & _ & _ & _ & Hg & _ & Hd).
      unfold exec. rewrite Hl. intros [= <- <-]. cbn [sys_state].
      split; [exact Hg | exact (delays_none _ Hd)].
    + intros [= <- <-]. auto.
  - intros [= <- <-]. cbn [sys_state]. unfold gate. cbn [set_sfr rGPIO].
    rewrite button_bits by lia. auto.
Qed.

Lemma run_alternates b xs :
  forall y y' tr,
    run b y xs = (y', tr) ->
    gate (sys_state y') = xorb (gate (sys_state y)) (Nat.odd (expiries b y xs)) /\
    delays tr
    = ((expiries b y xs + (if gate (sys_state y) then 0 else 1)) / 2)%nat.
Proof.
  induction xs as [| x xs IH]; intros y y' tr; cbn [run expiries].
  - intros [= <- <-]. cbn [Nat.odd]. rewrite xorb_false_r.
    split; [reflexivity |]. destruct (gate (sys_state y)); reflexivity.
  - destruct (step b y x) as [y1 t1] eqn:Hs. cbn [fst].
    destruct (run b y1 xs) as [y2 t2] eqn:Hr. intros [= <- <-].
    destruct (IH _ _ _ Hr) as [Hg Hd].
    pose proof (step_fires _ _ _ _ _ Hs) as Hf.
    rewrite delays_app, Hd, Hg. set (E := expiries b y1 xs) in *.
    destruct (fires y x); destruct Hf as [Hg1 Hd1]; rewrite Hg1, Hd1.
    + change (1 + E)%nat with (S E). rewrite Nat.odd_succ, <- Nat.negb_odd.
      split; [destruct (gate (sys_state y)), (Nat.odd E); reflexivity |].
      destruct (gate (sys_state y)); cbn [negb].
      * replace (S E + 0)%nat with (E + 1)%nat by lia. reflexivity.
      * replace (S E + 1)%nat with (E + 1 * 2)%nat by lia.
        rewrite Nat.div_add, Nat.add_0_r by lia. lia.
    + split; reflexivity.
Qed.

(** X11. Duty symmetry, in every build and from every state: along any
    stimuli the gate has flipped once per handler run, and the number of
    reset pulses (gate openings) is half the number of handler runs, rounded
    up when the gate started closed and down when it started open; so
    openings and closings never differ by more than one. *)
Theorem openings_alternate (b : build) (y : system) (xs : list stimulus) :
  gate (sys_state (fst (run b y xs)))
  = xorb (gate (sys_state y)) (Nat.odd (expiries b y xs)) /\
  delays (snd (run b y xs))
  = ((expiries b y xs + (if gate (sys_state y) then 0 else 1)) / 2)%nat.
Proof.
  destruct (run b y xs) as [y' tr] eqn:Hr. cbn [fst snd].
  exact (run_alternates b xs y y' tr Hr).
Qed.

(** ** The range switch takes effect within one loop turn *)

Lemma button_bit level g : Z.testbit (u8 (set_pin BTN_PIN level g)) 3 = level.
Proof.
  unfold set_pin, BTN_PIN. destruct level.
  - rewrite testbit_set by lia. apply orb_true_r.
  - rewrite testbit_clr by lia. apply andb_false_r.
Qed.

Lemma step_range b y x y1 t1 l :
  BTN_PORT b = Some GPIO ->
  sys_mode y = Looping ->
  Z.testbit (rGPIO (sys_state y)) 3 = l ->
  (forall l', x = Button l' -> l' = l) ->
  step b y x = (y1, t1) ->
  Z.testbit (rGPIO (sys_state y1)) 3 = l /\
  (x = Iter -> range_selected l (sys_state y1)) /\
  (range_selected l (sys_state y) -> range_selected l (sys_state y1)).
Proof.
  intros Hb. destruct y as [md s]. cbn [sys_mode sys_state]. intros -> H3 Hx.
  unfold range_selected.
  destruct x as [| | level]; cbn [step sys_mode sys_state].
  - destruct (tmr0_tick_frame s) as (Hg & _ & _ & Hp & Hx1).
    destruct (dispatch_cases (tmr0_tick s)) as [Hd | (s' & t & Hi & Hd)];
      rewrite Hd; intros [= <- <-]; cbn [sys_state].
    + rewrite Hg, Hp, Hx1. split; [exact H3 |]. split; [discriminate | auto].
    + destruct (isr_timer (tmr0_tick s)) as (s2 & t2 & Hi2 & _ & _ & A & B & _).
      rewrite Hi in Hi2. injection Hi2 as <- <-.
      rewrite (isr_port_bits _ _ _ 3 Hi), (isr_port_bits _ _ _ 2 Hi) by lia.
      rewrite A, B, Hg, Hp, Hx1. split; [exact H3 |]. split; [discriminate | auto].
  - unfold exec. rewrite loop_body_run, Hb. cbn [get_sfr]. rewrite H3. cbv zeta.
    assert (Hgoal : forall s',
      s' = (if l
            then set_sfr GPIO (u8 (Z.land (rGPIO s) (Z.lnot LED_PIN)))
                   (set_tmr_pr (tmr_prx1 s) s)
            else set_sfr GPIO (u8 (Z.lor (rGPIO s) LED_PIN))
                   (set_tmr_pr
                      (u8 (s16 (10 * promote (char_signed b) (tmr_prx1 s)))) s)) ->
      Z.testbit (rGPIO s') 3 = l /\
      tmr_pr s' = (if l then tmr_prx1 s' else (10 * tmr_prx1 s') mod 256) /\
      Z.testbit (rGPIO s') 2 = negb l).
    { intros s' ->. unfold LED_PIN. destruct l;
        cbn [set_sfr set_tmr_pr rGPIO tmr_pr tmr_prx1];
        rewrite ?testbit_clr, ?testbit_set by lia; cbn [Z.eqb Pos.eqb negb];
        rewrite ?andb_true_r, ?orb_false_r, ?andb_false_r, ?orb_true_r, H3.
      - repeat split.
      - rewrite times_ten_char. repeat split. }
    destruct l; intros Heq; apply pair_equal_spec in Heq; destruct Heq as [<- _];
      cbn [sys_state].
    + destruct (Hgoal _ eq_refl) as (A & B & C). auto.
    + destruct (Hgoal _ eq_refl) as (A & B & C). auto.
  - intros [= <- <-]. cbn [sys_state set_sfr rGPIO tmr_pr tmr_prx1].
    rewrite (Hx level eq_refl), button_bit, button_bits by lia.
    split; [reflexivity |]. split; [discriminate | auto].
Qed.

Lemma run_range b xs :
  BTN_PORT b = Some GPIO ->
  forall y y' tr l,
    sys_mode y = Looping ->
    Z.testbit (rGPIO (sys_state y)) 3 = l ->
    button_held l xs ->
    range_selected l (sys_state y) \/ In Iter xs ->
    run b y xs = (y', tr) ->
    range_selected l (sys_state y') /\ Z.testbit (rGPIO (sys_state y')) 3 = l.
Proof.
  intros Hb. induction xs as [| x xs IH]; intros y y' tr l Hm H3 Hh Hor; cbn [run].
  - intros [= <- <-]. destruct Hor as [H | []]. auto.
  - destruct (step b y x) as [y1 t1] eqn:Hs.
    destruct (run b y1 xs) as [y2 t2] eqn:Hr. intros [= <- <-].
    destruct (step_frame _ _ _ _ _ Hs) as (Hm1 & _).
    assert (Hx : forall l', x = Button l' -> l' = l).
    { intros l' ->. apply Hh. left. reflexivity. }
    destruct (step_range b y x y1 t1 l Hb Hm H3 Hx Hs) as (H31 & Hit & Hkeep).
    apply (IH y1 y2 t2 l); try assumption.
    + congruence.
    + intros l' Hin. apply Hh. right. exact Hin.
    + destruct Hor as [H | [-> | Hin]]; auto.
Qed.

(** X12. Mode switch: in a build with the button on GPIO and [main] in its
    loop, if the button pin is at one level and every button change in the
    stimuli sets that level, then after any stimuli that hold at least one
    loop turn, [tmr_pr] is [tmr_prx1] (pin high) or [10 * tmr_prx1] modulo
    256 (pin low), the LED pin is the inverse of the button pin, and
    [tmr_prx1] is unchanged, however many handler runs happened in between. *)
Theorem mode_switch_within_one_turn (b : build) (y y' : system)
    (xs : list stimulus) (tr : list event) (l : bool) :
  BTN_PORT b = Some GPIO ->
  sys_mode y = Looping ->
  Z.testbit (rGPIO (sys_state y)) 3 = l ->
  button_held l xs ->
  In Iter xs ->
  run b y xs = (y', tr) ->
  tmr_pr (sys_state y')
  = (if l then tmr_prx1 (sys_state y) else (10 * tmr_prx1 (sys_state y)) mod 256) /\
  Z.testbit (rGPIO (sys_state y')) 2 = negb l /\
  Z.testbit (rGPIO (sys_state y')) 3 = l /\
  tmr_prx1 (sys_state y') = tmr_prx1 (sys_state y).
Proof.
  intros Hb Hm H3 Hh Hin Hr.
  destruct (run_range b xs Hb y y' tr l Hm H3 Hh (or_intror Hin) Hr)
    as [[Hp Hled] H3'].
  destruct (run_frame b xs y y' tr Hr) as (_ & _ & _ & Hx).
  rewrite Hx in Hp. auto.
Qed.

Lemma mode_switch_within_one_turn_witness :
  tmr_pr (sys_state (fst (run (mkBuild 12000000 6400000 64 (Some GPIO) true)
     (mkSys Looping
        (mkState 2 8 9 false false false 5 false true true 250 241 241))
     [Tick; Iter; Button false; Tick; Tick; Tick; Tick; Tick; Tick])))
  = (10 * 241) mod 256.
Proof.
  apply (mode_switch_within_one_turn
           (mkBuild 12000000 6400000 64 (Some GPIO) true)
           (mkSys Looping
              (mkState 2 8 9 false false false 5 false true true 250 241 241))
           (fst (run (mkBuild 12000000 6400000 64 (Some GPIO) true)
              (mkSys Looping
                 (mkState 2 8 9 false false false 5 false true true 250 241 241))
              [Tick; Iter; Button false; Tick; Tick; Tick; Tick; Tick; Tick]))
           [Tick; Iter; Button false; Tick; Tick; Tick; Tick; Tick; Tick]
           (snd (run (mkBuild 12000000 6400000 64 (Some GPIO) true)
              (mkSys Looping
                 (mkState 2 8 9 false false false 5 false true true 250 241 241))
              [Tick; Iter; Button false; Tick; Tick; Tick; Tick; Tick; Tick]))
           false).
  - reflexivity.
  - reflexivity.
  - reflexivity.
  - intros l [H | [H | [H | H]]]; try discriminate H.
    + injection H as <-. reflexivity.
    + repeat (destruct H as [H | H]; [discriminate H |]). destruct H.
  - right. left. reflexivity.
  - apply surjective_pairing.
Defined.
